(** * Foodgram backend: favourites, shopping cart, subscriptions

    A shallow embedding of [backend/api/views.py] and of the foreign-key
    rules of [backend/recipes/migrations/0002_initial.py].

    The relational store is a record of tables, every table a list of rows.
    A view is a computation over the store that returns a response or raises
    one of the exceptions the framework turns into a response. *)

From stdpp Require Import base list strings sorting pretty relations.
From Stdlib Require Import ZArith.

Open Scope Z_scope.

(** ** Rows

    Primary keys, foreign keys and quantities are Python integers.  The
    model classes live in [recipes/models.py] and [users/models.py], which
    are not part of the sources; the fields below are the ones the views,
    the migration and the admin class name, and a recipe's name. *)

Record User := mkUser {
  user_id : Z;
  username : string }.

(** [author] is the only nullable foreign key (migration, [null=True]). *)
Record Recipe := mkRecipe {
  recipe_id : Z;
  recipe_name : string;
  author : option Z }.

Record Ingredient := mkIngredient {
  ingredient_id : Z;
  name : string;
  measurement_unit : string }.

(** The through-row of [Recipe.ingredients]. *)
Record IngredientRecipe := mkIngredientRecipe {
  ir_recipe : Z;
  ir_ingredient : Z;
  amount : Z }.

(** The automatic through-row of [Recipe.tags]. *)
Record RecipeTag := mkRecipeTag {
  rt_recipe : Z;
  rt_tag : Z }.

(** A row of [Favorite] or of [Shopping_cart]: both carry [user] and
    [recipe].  No view reads the surrogate key of these rows, so a row is
    its pair of references; a table is a list and may hold a pair twice. *)
Record UserRecipe := mkUserRecipe {
  ur_user : Z;
  ur_recipe : Z }.

Record Subscriptions := mkSubscriptions {
  sub_user : Z;
  sub_author : Z }.

#[global] Instance User_eq_dec : EqDecision User.
Proof. solve_decision. Defined.
#[global] Instance Recipe_eq_dec : EqDecision Recipe.
Proof. solve_decision. Defined.
#[global] Instance Ingredient_eq_dec : EqDecision Ingredient.
Proof. solve_decision. Defined.
#[global] Instance IngredientRecipe_eq_dec : EqDecision IngredientRecipe.
Proof. solve_decision. Defined.
#[global] Instance RecipeTag_eq_dec : EqDecision RecipeTag.
Proof. solve_decision. Defined.
#[global] Instance UserRecipe_eq_dec : EqDecision UserRecipe.
Proof. solve_decision. Defined.
#[global] Instance Subscriptions_eq_dec : EqDecision Subscriptions.
Proof. solve_decision. Defined.

(** ** The store *)

Record Db := mkDb {
  users : list User;
  recipes : list Recipe;
  ingredients : list Ingredient;
  ingredient_recipes : list IngredientRecipe;
  recipe_tags : list RecipeTag;
  favorites : list UserRecipe;
  shopping_carts : list UserRecipe;
  subscriptions : list Subscriptions }.

(** The [model] argument of [add_to] and [delete_from]. *)
Inductive EdgeModel := Favorite | Shopping_cart.

#[global] Instance EdgeModel_eq_dec : EqDecision EdgeModel.
Proof. solve_decision. Defined.

Definition objects (model : EdgeModel) (db : Db) : list UserRecipe :=
  match model with
  | Favorite => favorites db
  | Shopping_cart => shopping_carts db
  end.

Definition set_objects (model : EdgeModel) (rows : list UserRecipe) (db : Db) : Db :=
  match model with
  | Favorite =>
      mkDb (users db) (recipes db) (ingredients db) (ingredient_recipes db)
           (recipe_tags db) rows (shopping_carts db) (subscriptions db)
  | Shopping_cart =>
      mkDb (users db) (recipes db) (ingredients db) (ingredient_recipes db)
           (recipe_tags db) (favorites db) rows (subscriptions db)
  end.

Definition set_subscriptions (rows : list Subscriptions) (db : Db) : Db :=
  mkDb (users db) (recipes db) (ingredients db) (ingredient_recipes db)
       (recipe_tags db) (favorites db) (shopping_carts db) rows.

(** ** Responses *)

Inductive Serializer := RecipeShortSerializer | UserSubscribeSerializer.

(** What a response carries.  [api/serializers.py] is not part of the
    sources, so [serializer.data] is kept symbolic: the serializer and the
    primary key of the instance it was built from. *)
Inductive Content :=
  | NoData
  | Dict (items : list (string * string))
  | SerializerData (s : Serializer) (instance : Z)
  | Text (s : string).

Record Response := mkResponse {
  content : Content;
  status : Z;
  headers : list (string * string) }.

Definition HTTP_200_OK : Z := 200.
Definition HTTP_201_CREATED : Z := 201.
Definition HTTP_204_NO_CONTENT : Z := 204.
Definition HTTP_400_BAD_REQUEST : Z := 400.
Definition HTTP_404_NOT_FOUND : Z := 404.
Definition HTTP_500_INTERNAL_SERVER_ERROR : Z := 500.

(** [rest_framework.response.Response(data, status=...)]. *)
Definition Response_ (data : Content) (st : Z) : Response :=
  mkResponse data st [].

(** [django.http.HttpResponse(content, content_type=...)]. *)
Definition HttpResponse (text content_type : string) : Response :=
  mkResponse (Text text) HTTP_200_OK [("Content-Type", content_type)].

(** [response[key] = value]. *)
Definition set_header (key value : string) (r : Response) : Response :=
  mkResponse (content r) (status r)
             (filter (λ h, h.1 ≠ key) (headers r) ++ [(key, value)]).

Definition header (key : string) (r : Response) : option string :=
  snd <$> head (filter (λ h, h.1 = key) (headers r)).

(** The body is a JSON document. *)
Definition is_json (r : Response) : bool :=
  match content r with
  | Dict _ | SerializerData _ _ => true
  | NoData | Text _ => false
  end.

(** ** Views as computations over the store *)

Inductive Exn :=
  | Http404
  | ValidationError (detail : string)
  | MultipleObjectsReturned.

Inductive Result (A : Type) :=
  | Ok (a : A)
  | Raise (e : Exn).
Arguments Ok {A} a.
Arguments Raise {A} e.

Definition View (A : Type) : Type := Db → Result A * Db.

#[global] Instance View_ret : MRet View := λ A a db, (Ok a, db).
#[global] Instance View_bind : MBind View := λ A B k m db,
  match m db with
  | (Ok a, db') => k a db'
  | (Raise e, db') => (Raise e, db')
  end.

Definition raise {A} (e : Exn) : View A := λ db, (Raise e, db).
Definition query {A} (q : Db → A) : View A := λ db, (Ok (q db), db).
Definition update (f : Db → Db) : View unit := λ db, (Ok tt, f db).

(** [django.shortcuts.get_object_or_404]: [get] on the filtered table. *)
Definition get_object_or_404 {A} (table : Db → list A)
    (P : A → Prop) `{!∀ x, Decision (P x)} : View A :=
  found ← query (λ db, filter P (table db));
  match found with
  | [] => raise Http404
  | [x] => mret x
  | _ => raise MultipleObjectsReturned
  end.

(** What the framework makes of a view: exceptions become responses
    (the REST framework's exception handler); the detail texts are the
    framework's. *)
Definition handle (v : View Response) (db : Db) : Response * Db :=
  match v db with
  | (Ok r, db') => (r, db')
  | (Raise Http404, db') =>
      (Response_ (Dict [("detail", "Not found.")]) HTTP_404_NOT_FOUND, db')
  | (Raise (ValidationError d), db') =>
      (Response_ (Dict [("non_field_errors", d)]) HTTP_400_BAD_REQUEST, db')
  | (Raise MultipleObjectsReturned, db') =>
      (Response_ NoData HTTP_500_INTERNAL_SERVER_ERROR, db')
  end.

Inductive Method := POST | DELETE.

(** ** [RecipeViewSet]: favourites and the shopping cart

    The actions run behind [IsAuthenticated]: [user] is the primary key of
    [request.user].  [pk] is the recipe id of the URL, read as an integer;
    [recipe__id=pk] compares it with the foreign key of the row. *)

(** [model.objects.filter(user=user, recipe__id=pk)]. *)
Definition filter_user_recipe (model : EdgeModel) (user pk : Z) (db : Db)
    : list UserRecipe :=
  filter (λ o, ur_user o = user ∧ ur_recipe o = pk) (objects model db).

(** [QuerySet.exists()]. *)
Definition exists_ {A} (qs : list A) : bool :=
  match qs with [] => false | _ :: _ => true end.

(** [model.objects.create(user=user, recipe=recipe)]. *)
Definition objects_create (model : EdgeModel) (user : Z) (recipe : Recipe)
    : View unit :=
  update (λ db,
    set_objects model (objects model db ++ [mkUserRecipe user (recipe_id recipe)]) db).

(** [QuerySet.delete()] on [filter(user=user, recipe__id=pk)]: every row the
    filter selects goes. *)
Definition queryset_delete (model : EdgeModel) (user pk : Z) : View unit :=
  update (λ db,
    set_objects model
      (filter (λ o, ¬ (ur_user o = user ∧ ur_recipe o = pk)) (objects model db)) db).

Definition add_to (model : EdgeModel) (user pk : Z) : View Response :=
  dup ← query (λ db, exists_ (filter_user_recipe model user pk db));
  if dup : bool then
    mret (Response_ (Dict [("errors", "Рецепт уже добавлен!")])
                    HTTP_400_BAD_REQUEST)
  else
    recipe ← get_object_or_404 recipes (λ r, recipe_id r = pk);
    objects_create model user recipe;;
    mret (Response_ (SerializerData RecipeShortSerializer (recipe_id recipe))
                    HTTP_201_CREATED).

Definition delete_from (model : EdgeModel) (user pk : Z) : View Response :=
  found ← query (λ db, exists_ (filter_user_recipe model user pk db));
  if found : bool then
    queryset_delete model user pk;;
    mret (Response_ NoData HTTP_204_NO_CONTENT)
  else
    mret (Response_ (Dict [("errors", "Рецепт уже удален!")])
                    HTTP_400_BAD_REQUEST).

Definition shopping_cart (method : Method) (user pk : Z) : View Response :=
  match method with
  | POST => add_to Shopping_cart user pk
  | DELETE => delete_from Shopping_cart user pk
  end.

Definition favorite (method : Method) (user pk : Z) : View Response :=
  match method with
  | POST => add_to Favorite user pk
  | DELETE => delete_from Favorite user pk
  end.

(** How many rows of the table join [user] and recipe [pk]. *)
Definition edge_count (model : EdgeModel) (db : Db) (user pk : Z) : nat :=
  length (filter_user_recipe model user pk db).

(** ** [CustomUserViewSet.subscribe] *)

(** Modelled from the spec: [UserSubscribeSerializer.is_valid] of
    [api/serializers.py], which is not part of the sources.  The spec has
    subscribing fail when the subscription already exists, and says that
    nothing forbids a user from subscribing to themselves: the validation
    compares no identities, it only looks for the row. *)
Definition UserSubscribeSerializer_is_valid (user : Z) (author : User)
    : View unit :=
  taken ← query (λ db,
    exists_ (filter (λ s, sub_user s = user ∧ sub_author s = user_id author)
                    (subscriptions db)));
  if taken : bool then raise (ValidationError "already subscribed")
  else mret tt.

Definition subscribe (method : Method) (user id : Z) : View Response :=
  author ← get_object_or_404 users (λ a, user_id a = id);
  match method with
  | POST =>
      UserSubscribeSerializer_is_valid user author;;
      update (λ db,
        set_subscriptions
          (subscriptions db ++ [mkSubscriptions user (user_id author)]) db);;
      mret (Response_ (SerializerData UserSubscribeSerializer (user_id author))
                      HTTP_201_CREATED)
  | DELETE =>
      subscription ← get_object_or_404 subscriptions
        (λ s, sub_user s = user ∧ sub_author s = user_id author);
      update (λ db,
        set_subscriptions (filter (λ s, s ≠ subscription) (subscriptions db)) db);;
      mret (Response_ NoData HTTP_204_NO_CONTENT)
  end.

(** ** [RecipeViewSet.download_shopping_cart] *)

(** A row of [.values('ingredient__name', 'ingredient__measurement_unit')
    .annotate(amount=Sum('amount'))]. *)
Record ValuesRow := mkValuesRow {
  ingredient__name : string;
  ingredient__measurement_unit : string;
  amount_sum : Z }.

#[global] Instance ValuesRow_eq_dec : EqDecision ValuesRow.
Proof. solve_decision. Defined.

(** [Sum]. *)
Definition Sum (l : list Z) : Z := foldr Z.add 0 l.

(** [IngredientRecipe.objects.filter(recipe__in_shopping_cart__user=user)]
    with the ingredient joined in: one row for every triple of an
    [IngredientRecipe] row, a [Shopping_cart] row of [user] on the same
    recipe, and the ingredient the row points to.  Each row is the grouping
    key and the quantity.  [join_row] is what one [IngredientRecipe] row
    contributes. *)
Definition join_row (user : Z) (db : Db) (ir : IngredientRecipe)
    : list (string * string * Z) :=
  sc ← filter (λ sc, ur_user sc = user ∧ ur_recipe sc = ir_recipe ir)
              (shopping_carts db);
  ing ← filter (λ i, ingredient_id i = ir_ingredient ir) (ingredients db);
  [(name ing, measurement_unit ing, amount ir)].

Definition cart_join (user : Z) (db : Db) : list (string * string * Z) :=
  ingredient_recipes db ≫= join_row user db.

(** [.values(k1, k2).annotate(amount=Sum('amount'))]: GROUP BY the two
    keys, one row per distinct key with the sum over the rows that have it. *)
Definition values_annotate_sum (rows : list (string * string * Z)) : list ValuesRow :=
  (λ k : string * string,
     mkValuesRow k.1 k.2 (Sum (snd <$> filter (λ row, row.1 = k) rows)))
  <$> remove_dups (fst <$> rows).

Section Collation.
(** The order of [order_by] is the collation of the database, which the
    repository does not fix. *)
Context (collate : relation string) `{!RelDecision collate}.

Definition by_name : relation ValuesRow :=
  λ a b, collate (ingredient__name a) (ingredient__name b).

#[global] Instance by_name_dec : RelDecision by_name.
Proof. intros a b. unfold by_name. apply _. Defined.

(** [.order_by('ingredient__name')]. *)
Definition order_by_name (rows : list ValuesRow) : list ValuesRow :=
  merge_sort by_name rows.

(** The queryset [ingredients] of the view. *)
Definition shopping_cart_ingredients (user : Z) (db : Db) : list ValuesRow :=
  order_by_name (values_annotate_sum (cart_join user db)).
End Collation.

Definition newline : string := String (Ascii.ascii_of_nat 10) EmptyString.
Definition dquote : string := String (Ascii.ascii_of_nat 34) EmptyString.

(** One element of the list comprehension: the f-string. *)
Definition shopping_list_line (ingredient : ValuesRow) : string :=
  " - " +:+ ingredient__name ingredient +:+ " "
  +:+ "(" +:+ ingredient__measurement_unit ingredient +:+ ") - "
  +:+ " - " +:+ pretty (amount_sum ingredient).

(** [shopping_list = 'Список Покупок'; shopping_list += '\n'.join([...])]. *)
Definition render_shopping_list (ingredients : list ValuesRow) : string :=
  "Список Покупок" +:+ String.concat newline (shopping_list_line <$> ingredients).

Definition download_shopping_cart (collate : relation string)
    `{!RelDecision collate} (user : Z) : View Response :=
  has_rows ← query (λ db,
    exists_ (filter (λ sc, ur_user sc = user) (shopping_carts db)));
  if negb has_rows then mret (Response_ NoData HTTP_400_BAD_REQUEST)
  else
    ingredients ← query (shopping_cart_ingredients collate user);
    let shopping_list := render_shopping_list ingredients in
    let file := "shopping_list.txt" in
    let response := HttpResponse shopping_list "text/plain" in
    mret (set_header "Content-Disposition"
            ("attachment; filename=" +:+ dquote +:+ file +:+ ".txt" +:+ dquote)
            response).

(** ** Deletion of recipes and users

    [ModelViewSet.destroy] calls [instance.delete()]; what goes with the
    instance is decided by the [on_delete] of every foreign key pointing
    at it, as the migration declares them. *)
Module Deletion.

Inductive OnDelete := CASCADE | SET_NULL.

(** The foreign keys of the migration, as [model_field]; [recipe_tags]
    are the two columns of the automatic through-table of [Recipe.tags]. *)
Inductive ForeignKey :=
  | subscriptions_author
  | subscriptions_user
  | shopping_cart_recipe
  | shopping_cart_user
  | recipe_author
  | ingredientrecipe_ingredient
  | ingredientrecipe_recipe
  | favorite_recipe
  | favorite_user
  | recipe_tags_recipe.

Definition on_delete (fk : ForeignKey) : OnDelete :=
  match fk with
  | subscriptions_author => CASCADE
  | subscriptions_user => CASCADE
  | shopping_cart_recipe => CASCADE
  | shopping_cart_user => CASCADE
  | recipe_author => SET_NULL
  | ingredientrecipe_ingredient => CASCADE
  | ingredientrecipe_recipe => CASCADE
  | favorite_recipe => CASCADE
  | favorite_user => CASCADE
  | recipe_tags_recipe => CASCADE
  end.

(** What the collector does to the table holding foreign key [fk] when
    the row with primary key [target] is deleted: [ref] reads the key,
    [null] is the row with the key set to NULL. *)
Definition collect {A} (fk : ForeignKey) (ref : A → option Z)
    (null : A → A) (target : Z) (rows : list A) : list A :=
  match on_delete fk with
  | CASCADE => filter (λ row, ref row ≠ Some target) rows
  | SET_NULL =>
      (λ row, if decide (ref row = Some target) then null row else row) <$> rows
  end.

Definition null_author (r : Recipe) : Recipe :=
  mkRecipe (recipe_id r) (recipe_name r) None.

(** [recipe.delete()] for the recipe with primary key [pk]. *)
Definition delete_recipe (pk : Z) (db : Db) : Db :=
  mkDb (users db)
       (filter (λ r, recipe_id r ≠ pk) (recipes db))
       (ingredients db)
       (collect ingredientrecipe_recipe (λ x, Some (ir_recipe x)) id pk
                (ingredient_recipes db))
       (collect recipe_tags_recipe (λ x, Some (rt_recipe x)) id pk
                (recipe_tags db))
       (collect favorite_recipe (λ x, Some (ur_recipe x)) id pk (favorites db))
       (collect shopping_cart_recipe (λ x, Some (ur_recipe x)) id pk
                (shopping_carts db))
       (subscriptions db).

(** [user.delete()] for the user with primary key [pk]. *)
Definition delete_user (pk : Z) (db : Db) : Db :=
  mkDb (filter (λ u, user_id u ≠ pk) (users db))
       (collect recipe_author author null_author pk (recipes db))
       (ingredients db)
       (ingredient_recipes db)
       (recipe_tags db)
       (collect favorite_user (λ x, Some (ur_user x)) id pk (favorites db))
       (collect shopping_cart_user (λ x, Some (ur_user x)) id pk
                (shopping_carts db))
       (collect subscriptions_author (λ x, Some (sub_author x)) id pk
          (collect subscriptions_user (λ x, Some (sub_user x)) id pk
                   (subscriptions db))).

End Deletion.

(** ** A sample store: recipe A (2 eggs, 100 flour) and recipe B (1 egg,
    50 flour), both in the cart of user 1. *)
Definition sample_db : Db :=
  mkDb [mkUser 1 "alice"; mkUser 2 "bob"]
       [mkRecipe 1 "A" (Some 2); mkRecipe 2 "B" (Some 2)]
       [mkIngredient 1 "egg" "pcs"; mkIngredient 2 "flour" "g"]
       [mkIngredientRecipe 1 1 2; mkIngredientRecipe 1 2 100;
        mkIngredientRecipe 2 1 1; mkIngredientRecipe 2 2 50]
       []
       [mkUserRecipe 1 1]
       [mkUserRecipe 1 1; mkUserRecipe 1 2]
       [].

(** ** Notions the statements use *)

(** Recipe [pk] is in the cart of [user]. *)
Definition in_cart (user : Z) (db : Db) (pk : Z) : Prop :=
  mkUserRecipe user pk ∈ shopping_carts db.

#[global] Instance in_cart_dec user db pk : Decision (in_cart user db pk).
Proof. unfold in_cart. apply _. Defined.

(** The ingredient of row [ir] has grouping key [k]. *)
Definition has_key (db : Db) (ir : IngredientRecipe) (k : string * string) : Prop :=
  Exists (λ ing, ingredient_id ing = ir_ingredient ir
                 ∧ (name ing, measurement_unit ing) = k) (ingredients db).

#[global] Instance has_key_dec db ir k : Decision (has_key db ir k).
Proof. unfold has_key. apply _. Defined.

(** The [IngredientRecipe] rows of the recipes in the cart of [user] whose
    ingredient has key [k], each row once. *)
Definition group_rows (user : Z) (db : Db) (k : string * string)
    : list IngredientRecipe :=
  filter (λ ir, in_cart user db (ir_recipe ir) ∧ has_key db ir k)
         (ingredient_recipes db).

Definition key (g : ValuesRow) : string * string :=
  (ingredient__name g, ingredient__measurement_unit g).

(** The two refusals of the toggle views. *)
Definition duplicate_response : Response :=
  Response_ (Dict [("errors", "Рецепт уже добавлен!")]) HTTP_400_BAD_REQUEST.

Definition removed_response : Response :=
  Response_ (Dict [("errors", "Рецепт уже удален!")]) HTTP_400_BAD_REQUEST.

(** "At most one row per (user, recipe)" in both tables. *)
Definition edges_unique (db : Db) : Prop :=
  ∀ model, NoDup (objects model db).

(** One request, or anything else that leaves [Favorite] and
    [Shopping_cart] alone (creating or editing recipes, users, tags). *)
Inductive step (db : Db) : Db → Prop :=
  | step_favorite (method : Method) (user pk : Z) :
      step db (handle (favorite method user pk) db).2
  | step_shopping_cart (method : Method) (user pk : Z) :
      step db (handle (shopping_cart method user pk) db).2
  | step_subscribe (method : Method) (user id : Z) :
      step db (handle (subscribe method user id) db).2
  | step_delete_recipe (pk : Z) :
      step db (Deletion.delete_recipe pk db)
  | step_delete_user (pk : Z) :
      step db (Deletion.delete_user pk db)
  | step_other (db' : Db) :
      (∀ model, objects model db' = objects model db) → step db db'.

(** A store with another [Recipe] table. *)
Definition with_recipes (rs : list Recipe) (db : Db) : Db :=
  mkDb (users db) rs (ingredients db) (ingredient_recipes db)
       (recipe_tags db) (favorites db) (shopping_carts db) (subscriptions db).

Definition empty_db : Db := mkDb [] [] [] [] [] [] [] [].

(** ** Notions of the further properties *)

(** The queryset of [CustomUserViewSet.subscriptions],
    [User.objects.filter(subscriber__user=request.user)]: a user row for
    every [Subscriptions] row that has the user as author and
    [request.user] as subscriber.  The view hands it to the paginator and
    the serializer, which are not part of the sources. *)
Definition subscriptions_queryset (user : Z) (db : Db) : list User :=
  a ← users db;
  s ← filter (λ s, sub_author s = user_id a ∧ sub_user s = user)
             (subscriptions db);
  [a].

(** A store with another [Shopping_cart] table. *)
Definition with_shopping_carts (rows : list UserRecipe) (db : Db) : Db :=
  mkDb (users db) (recipes db) (ingredients db) (ingredient_recipes db)
       (recipe_tags db) (favorites db) rows (subscriptions db).

Definition user_ids (db : Db) : list Z := user_id <$> users db.
Definition recipe_ids (db : Db) : list Z := recipe_id <$> recipes db.
Definition ingredient_ids (db : Db) : list Z := ingredient_id <$> ingredients db.

(** Every foreign key of the store points at a row that is there. *)
Definition referential_integrity (db : Db) : Prop :=
  (∀ o, o ∈ favorites db → ur_user o ∈ user_ids db ∧ ur_recipe o ∈ recipe_ids db)
  ∧ (∀ o, o ∈ shopping_carts db →
          ur_user o ∈ user_ids db ∧ ur_recipe o ∈ recipe_ids db)
  ∧ (∀ s, s ∈ subscriptions db →
          sub_user s ∈ user_ids db ∧ sub_author s ∈ user_ids db)
  ∧ (∀ ir, ir ∈ ingredient_recipes db →
           ir_recipe ir ∈ recipe_ids db ∧ ir_ingredient ir ∈ ingredient_ids db)
  ∧ (∀ t, t ∈ recipe_tags db → rt_recipe t ∈ recipe_ids db)
  ∧ (∀ r u, r ∈ recipes db → author r = Some u → u ∈ user_ids db).

(** The [IngredientRecipe] rows of the recipes in the cart of [user] whose
    ingredient is in the [Ingredient] table. *)
Definition cart_rows (user : Z) (db : Db) : list IngredientRecipe :=
  filter (λ ir, in_cart user db (ir_recipe ir)
                ∧ ir_ingredient ir ∈ ingredient_ids db)
         (ingredient_recipes db).

(** * Proofs *)

(** ** Running a view *)

Ltac run_view :=
  cbv [handle add_to delete_from shopping_cart favorite subscribe
       download_shopping_cart UserSubscribeSerializer_is_valid
       objects_create queryset_delete get_object_or_404
       mbind mret View_bind View_ret raise query update].

(** Membership in a table written out, and closed decidable facts. *)
Ltac rows_cases H :=
  repeat (apply elem_of_cons in H as [->|H]);
  [.. | by apply not_elem_of_nil in H].

Ltac in_sample := apply (bool_decide_unpack _); vm_compute; exact I.

Lemma exists_false {A} (l : list A) : exists_ l = false ↔ l = [].
Proof. destruct l; simpl; split; congruence. Qed.

Lemma exists_true {A} (l : list A) : exists_ l = true ↔ l ≠ [].
Proof. destruct l; simpl; split; congruence. Qed.

Lemma user_recipe_eta (o : UserRecipe) (user pk : Z) :
  ur_user o = user ∧ ur_recipe o = pk ↔ o = mkUserRecipe user pk.
Proof. destruct o; simpl. split; [intros [-> ->] | intros [= -> ->]]; done. Qed.

Lemma filter_user_recipe_eq (model : EdgeModel) (user pk : Z) (db : Db) :
  filter_user_recipe model user pk db
  = filter (λ o, o = mkUserRecipe user pk) (objects model db).
Proof. apply list_filter_iff. intros o. apply user_recipe_eta. Qed.

Lemma filter_user_recipe_nil (model : EdgeModel) (user pk : Z) (db : Db) :
  filter_user_recipe model user pk db = [] ↔ mkUserRecipe user pk ∉ objects model db.
Proof.
  rewrite filter_user_recipe_eq. split.
  - intros Hnil Hin.
    assert (mkUserRecipe user pk ∈ filter (λ o, o = mkUserRecipe user pk) (objects model db))
      as Hf by (apply list_elem_of_filter; done).
    rewrite Hnil in Hf. by apply not_elem_of_nil in Hf.
  - intros Hnotin. induction (objects model db) as [|o l IH]; [done|].
    rewrite filter_cons. apply not_elem_of_cons in Hnotin as [Hne Hl].
    destruct (decide (o = mkUserRecipe user pk)); [congruence | auto].
Qed.

(** With every value of [f] at most once in the table, a lookup by [f]
    selects nothing or one row. *)
Lemma filter_unique {A B} `{EqDecision B} (f : A → B) (v : B) (l : list A) :
  NoDup (f <$> l) →
  (filter (λ x, f x = v) l = [] ∧ ∀ x, x ∈ l → f x ≠ v)
  ∨ (∃ x, filter (λ x, f x = v) l = [x] ∧ x ∈ l ∧ f x = v).
Proof.
  induction l as [|a l IH]; intros Hnd.
  - left. split; [done|]. intros x Hx. by apply not_elem_of_nil in Hx.
  - rewrite fmap_cons in Hnd. apply NoDup_cons in Hnd as [Ha Hnd].
    rewrite filter_cons. destruct (decide (f a = v)) as [Hav|Hav].
    + right. exists a. split; [|split; [left|done]].
      f_equal. destruct (IH Hnd) as [[Hnil _]|(x & _ & Hx & Hfx)]; [done|].
      exfalso. apply Ha. rewrite Hav, <- Hfx. by apply list_elem_of_fmap_2.
    + destruct (IH Hnd) as [[Hnil Hall]|(x & Hf & Hx & Hfx)].
      * left. split; [done|]. intros x [->|Hx]%elem_of_cons; auto.
      * right. exists x. split; [done|]. split; [by right|done].
Qed.

Lemma filter_eq_unique {A} `{EqDecision A} (v : A) (l : list A) :
  NoDup l →
  (filter (λ x, x = v) l = [] ∧ v ∉ l) ∨ (filter (λ x, x = v) l = [v] ∧ v ∈ l).
Proof.
  intros Hnd. destruct (filter_unique id v l) as [[Hf Hall]|(x & Hf & Hx & Hid)].
  - by rewrite list_fmap_id.
  - left. split; [exact Hf|]. intros Hin. by destruct (Hall _ Hin).
  - unfold id in Hid. subst x. right. by split; [exact Hf|].
Qed.

Lemma filter_user_recipe_unique (model : EdgeModel) (user pk : Z) (db : Db) :
  NoDup (objects model db) →
  mkUserRecipe user pk ∈ objects model db →
  filter_user_recipe model user pk db = [mkUserRecipe user pk].
Proof.
  intros Hnd Hin. rewrite filter_user_recipe_eq.
  destruct (filter_unique id (mkUserRecipe user pk) (objects model db))
    as [[_ Hall]|(x & Hf & _ & Hx)].
  - by rewrite list_fmap_id.
  - by destruct (Hall _ Hin).
  - simpl in Hx. subst x. exact Hf.
Qed.

Lemma objects_set_objects (model : EdgeModel) (rows : list UserRecipe) (db : Db) :
  objects model (set_objects model rows db) = rows.
Proof. by destruct model. Qed.

(** ** Favourites and the shopping cart *)

Lemma add_to_present (model : EdgeModel) (db : Db) (user pk : Z) :
  filter_user_recipe model user pk db ≠ [] →
  handle (add_to model user pk) db = (duplicate_response, db).
Proof.
  intros Hex%exists_true. run_view. by rewrite Hex.
Qed.

Lemma add_to_absent (model : EdgeModel) (db : Db) (user pk : Z) (r : Recipe) :
  filter_user_recipe model user pk db = [] →
  filter (λ r, recipe_id r = pk) (recipes db) = [r] →
  handle (add_to model user pk) db
  = (Response_ (SerializerData RecipeShortSerializer pk) HTTP_201_CREATED,
     set_objects model (objects model db ++ [mkUserRecipe user pk]) db).
Proof.
  intros Hnil%exists_false Hr. run_view. rewrite Hnil, Hr.
  assert (r ∈ filter (λ r, recipe_id r = pk) (recipes db)) as Hin
    by (rewrite Hr; left).
  apply list_elem_of_filter in Hin as [-> _]. done.
Qed.

Lemma add_to_missing_recipe (model : EdgeModel) (db : Db) (user pk : Z) :
  filter_user_recipe model user pk db = [] →
  filter (λ r, recipe_id r = pk) (recipes db) = [] →
  handle (add_to model user pk) db
  = (Response_ (Dict [("detail", "Not found.")]) HTTP_404_NOT_FOUND, db).
Proof.
  intros Hnil%exists_false Hr. run_view. by rewrite Hnil, Hr.
Qed.

Lemma delete_from_absent (model : EdgeModel) (db : Db) (user pk : Z) :
  filter_user_recipe model user pk db = [] →
  handle (delete_from model user pk) db = (removed_response, db).
Proof.
  intros Hnil%exists_false. run_view. by rewrite Hnil.
Qed.

Lemma delete_from_present (model : EdgeModel) (db : Db) (user pk : Z) :
  filter_user_recipe model user pk db ≠ [] →
  handle (delete_from model user pk) db
  = (Response_ NoData HTTP_204_NO_CONTENT,
     set_objects model
       (filter (λ o, ¬ (ur_user o = user ∧ ur_recipe o = pk)) (objects model db)) db).
Proof.
  intros Hex%exists_true. run_view. by rewrite Hex.
Qed.

(** The views keep "at most one row per (user, recipe)". *)
Lemma add_to_NoDup (model : EdgeModel) (db : Db) (user pk : Z) :
  NoDup (objects model db) →
  NoDup (objects model (handle (add_to model user pk) db).2).
Proof.
  intros Hnd. run_view.
  destruct (exists_ (filter_user_recipe model user pk db)) eqn:Hex; [done|].
  destruct (filter _ (recipes db)) as [|r [|??]] eqn:Hr; simpl; try done.
  rewrite objects_set_objects. apply NoDup_app. split; [done|].
  split; [|apply NoDup_singleton].
  intros o Ho ->%list_elem_of_singleton.
  apply exists_false, filter_user_recipe_nil in Hex.
  assert (recipe_id r = pk) as Hid.
  { assert (r ∈ filter (λ r, recipe_id r = pk) (recipes db)) as Hin
      by (rewrite Hr; left).
    by apply list_elem_of_filter in Hin as [? _]. }
  rewrite Hid in Ho. done.
Qed.

Lemma delete_from_NoDup (model : EdgeModel) (db : Db) (user pk : Z) :
  NoDup (objects model db) →
  NoDup (objects model (handle (delete_from model user pk) db).2).
Proof.
  intros Hnd. run_view.
  destruct (exists_ (filter_user_recipe model user pk db)); [|done].
  simpl. rewrite objects_set_objects. by apply NoDup_filter.
Qed.

Lemma filter_ne_absent {A} `{EqDecision A} (x : A) (l : list A) :
  x ∉ l → filter (λ y, y ≠ x) l = l.
Proof.
  induction l as [|b l IH]; [done|].
  intros [Hne Hl]%not_elem_of_cons. rewrite filter_cons.
  destruct (decide (b ≠ x)) as [|Hn]; [|exfalso; apply Hn; congruence].
  f_equal. auto.
Qed.

Lemma subscribe_objects (method : Method) (user id : Z) (db : Db) (model : EdgeModel) :
  objects model (handle (subscribe method user id) db).2 = objects model db.
Proof.
  run_view. destruct (filter _ (users db)) as [|a [|??]]; simpl; try done.
  destruct method;
    [ destruct (exists_ _)
    | destruct (filter _ (subscriptions db)) as [|sub [|??]] ];
    simpl; try done; by destruct model.
Qed.

Lemma objects_set_objects_ne (model model' : EdgeModel) (rows : list UserRecipe) (db : Db) :
  model ≠ model' → objects model' (set_objects model rows db) = objects model' db.
Proof. by destruct model, model'. Qed.

Lemma add_to_other_objects (model model' : EdgeModel) (user pk : Z) (db : Db) :
  model ≠ model' →
  objects model' (handle (add_to model user pk) db).2 = objects model' db.
Proof.
  intros Hne. run_view. destruct (exists_ _); [done|].
  destruct (filter _ (recipes db)) as [|r [|??]]; simpl; try done.
  by apply objects_set_objects_ne.
Qed.

Lemma delete_from_other_objects (model model' : EdgeModel) (user pk : Z) (db : Db) :
  model ≠ model' →
  objects model' (handle (delete_from model user pk) db).2 = objects model' db.
Proof.
  intros Hne. run_view. destruct (exists_ _); [|done].
  simpl. by apply objects_set_objects_ne.
Qed.

Lemma toggle_NoDup (model model' : EdgeModel) (method : Method) (user pk : Z) (db : Db) :
  NoDup (objects model' db) →
  NoDup (objects model'
           (handle (match method with
                    | POST => add_to model user pk
                    | DELETE => delete_from model user pk
                    end) db).2).
Proof.
  intros Hnd. destruct (decide (model = model')) as [->|Hne], method.
  - by apply add_to_NoDup.
  - by apply delete_from_NoDup.
  - by rewrite add_to_other_objects.
  - by rewrite delete_from_other_objects.
Qed.

(** Uniqueness is an invariant of the store: every request keeps it. *)
Lemma step_edges_unique (db db' : Db) :
  step db db' → edges_unique db → edges_unique db'.
Proof.
  intros Hstep Hu model.
  destruct Hstep as [method user pk|method user pk|method user id|pk|pk|db' Heq].
  - apply (toggle_NoDup Favorite), Hu.
  - apply (toggle_NoDup Shopping_cart), Hu.
  - rewrite subscribe_objects. apply Hu.
  - destruct model; simpl; apply NoDup_filter;
      [apply (Hu Favorite) | apply (Hu Shopping_cart)].
  - destruct model; simpl; apply NoDup_filter;
      [apply (Hu Favorite) | apply (Hu Shopping_cart)].
  - rewrite Heq. apply Hu.
Qed.

Lemma reachable_edges_unique (db db' : Db) :
  rtc step db db' → edges_unique db → edges_unique db'.
Proof.
  induction 1 as [|db1 db2 db3 Hstep _ IH]; [done|].
  intros Hu. apply IH. by apply (step_edges_unique db1).
Qed.

Lemma empty_db_edges_unique : edges_unique empty_db.
Proof. intros []; apply NoDup_nil_2. Qed.

(** Removing the rows equal to [x] from a table that has [x] once. *)
Lemma filter_remove_one {A} `{EqDecision A} (x : A) (l : list A) :
  NoDup l → x ∈ l → l ≡ₚ x :: filter (λ y, y ≠ x) l.
Proof.
  induction l as [|a l IH]; intros Hnd Hin; [by apply not_elem_of_nil in Hin|].
  apply NoDup_cons in Hnd as [Ha Hnd]. rewrite filter_cons.
  destruct (decide (a ≠ x)) as [Hne|Heq].
  - apply elem_of_cons in Hin as [->|Hin]; [done|].
    rewrite (IH Hnd Hin) at 1. apply Permutation_swap.
  - apply dec_stable in Heq. subst a. by rewrite filter_ne_absent.
Qed.

(** C2: when the (user, recipe) row is already in the table, [add_to]
    answers 400 with an [errors] message, leaves the store as it was
    (no row inserted), and the table, which holds each pair at most once,
    still holds the pair exactly once; the answer is an error, not the 201
    of an addition. *)
Theorem add_to_duplicate (model : EdgeModel) (db : Db) (user pk : Z) :
  mkUserRecipe user pk ∈ objects model db →
  let (response, db') := handle (add_to model user pk) db in
  response = Response_ (Dict [("errors", "Рецепт уже добавлен!")]) HTTP_400_BAD_REQUEST
  ∧ status response = 400 ∧ status response ≠ HTTP_201_CREATED
  ∧ db' = db
  ∧ (NoDup (objects model db) →
     edge_count model db user pk = 1%nat ∧ edge_count model db' user pk = 1%nat).
Proof.
  intros Hin.
  assert (filter_user_recipe model user pk db ≠ []) as Hne.
  { intros Hnil. by apply filter_user_recipe_nil in Hnil. }
  rewrite (add_to_present _ _ _ _ Hne).
  repeat split; try done.
  all: unfold edge_count; by rewrite filter_user_recipe_unique.
Qed.

Lemma add_to_duplicate_witness :
  (∃ r, r ∈ recipes sample_db ∧ recipe_id r = 1)
  ∧ mkUserRecipe 1 1 ∈ objects Favorite sample_db
  ∧ let (response, db') := handle (add_to Favorite 1 1) sample_db in
    response = Response_ (Dict [("errors", "Рецепт уже добавлен!")]) HTTP_400_BAD_REQUEST
    ∧ status response = 400 ∧ status response ≠ HTTP_201_CREATED
    ∧ db' = sample_db
    ∧ (NoDup (objects Favorite sample_db) →
       edge_count Favorite sample_db 1 1 = 1%nat
       ∧ edge_count Favorite db' 1 1 = 1%nat).
Proof.
  assert (∃ r, r ∈ recipes sample_db ∧ recipe_id r = 1) as H1.
  { exists (mkRecipe 1 "A" (Some 2)). split; [left | reflexivity]. }
  assert (mkUserRecipe 1 1 ∈ objects Favorite sample_db) as H2 by left.
  split; [exact H1|]. split; [exact H2|].
  exact (add_to_duplicate Favorite sample_db 1 1 H2).
Defined.

(** Adding twice: the first call inserts the row, the second is refused
    and the pair is still there once. *)
Lemma add_to_twice (model : EdgeModel) (db : Db) (user pk : Z) (r : Recipe) :
  filter_user_recipe model user pk db = [] →
  filter (λ r, recipe_id r = pk) (recipes db) = [r] →
  let (first, db1) := handle (add_to model user pk) db in
  let (second, db2) := handle (add_to model user pk) db1 in
  status first = HTTP_201_CREATED
  ∧ second = duplicate_response
  ∧ db2 = db1
  ∧ edge_count model db2 user pk = 1%nat.
Proof.
  intros Hnil Hr. rewrite (add_to_absent _ _ _ _ r Hnil Hr).
  set (db1 := set_objects model _ db).
  assert (edge_count model db1 user pk = 1%nat) as Hcount.
  { unfold edge_count, filter_user_recipe, db1. rewrite objects_set_objects.
    rewrite filter_app. fold (filter_user_recipe model user pk db).
    rewrite Hnil. simpl. rewrite filter_cons, filter_nil.
    destruct (decide _) as [|Hn]; [done|]. by destruct Hn. }
  rewrite add_to_present.
  - done.
  - intros Hnil'. unfold edge_count in Hcount. by rewrite Hnil' in Hcount.
Qed.

Lemma filter_not_user_recipe (model : EdgeModel) (user pk : Z) (db : Db) :
  filter (λ o, ¬ (ur_user o = user ∧ ur_recipe o = pk)) (objects model db)
  = filter (λ o, o ≠ mkUserRecipe user pk) (objects model db).
Proof.
  apply list_filter_iff. intros o. by rewrite user_recipe_eta.
Qed.

(** C3: [delete_from] without a matching row answers 400 with the
    "already removed" message and leaves the store as it was; with a
    matching row, in a table that holds each pair at most once, it answers
    204 without content and the table loses exactly that one row. *)
Theorem delete_from_spec (model : EdgeModel) (db : Db) (user pk : Z) :
  NoDup (objects model db) →
  let (response, db') := handle (delete_from model user pk) db in
  (mkUserRecipe user pk ∉ objects model db →
     response = Response_ (Dict [("errors", "Рецепт уже удален!")]) HTTP_400_BAD_REQUEST
     ∧ status response = 400
     ∧ db' = db)
  ∧ (mkUserRecipe user pk ∈ objects model db →
     response = Response_ NoData HTTP_204_NO_CONTENT
     ∧ status response = 204
     ∧ objects model db ≡ₚ (mkUserRecipe user pk :: objects model db')
     ∧ length (objects model db) = S (length (objects model db'))
     ∧ (mkUserRecipe user pk ∉ objects model db')
     ∧ db' = set_objects model (objects model db') db).
Proof.
  intros Hnd.
  destruct (decide (mkUserRecipe user pk ∈ objects model db)) as [Hin|Hout].
  - assert (filter_user_recipe model user pk db ≠ []) as Hne.
    { intros Hnil. by apply filter_user_recipe_nil in Hnil. }
    rewrite (delete_from_present _ _ _ _ Hne).
    split; [done|]. intros _.
    rewrite objects_set_objects, filter_not_user_recipe.
    pose proof (filter_remove_one _ _ Hnd Hin) as Hperm.
    repeat split; try done.
    + by rewrite Hperm at 1.
    + intros [Hneq _]%list_elem_of_filter. by apply Hneq.
  - rewrite delete_from_absent by (by apply filter_user_recipe_nil).
    split; [done|]. intros Hin. by destruct Hout.
Qed.

Lemma delete_from_spec_witness :
  NoDup (objects Shopping_cart sample_db)
  ∧ let (response, db') := handle (delete_from Shopping_cart 1 2) sample_db in
    (mkUserRecipe 1 2 ∉ objects Shopping_cart sample_db →
       response = Response_ (Dict [("errors", "Рецепт уже удален!")]) HTTP_400_BAD_REQUEST
       ∧ status response = 400
       ∧ db' = sample_db)
    ∧ (mkUserRecipe 1 2 ∈ objects Shopping_cart sample_db →
       response = Response_ NoData HTTP_204_NO_CONTENT
       ∧ status response = 204
       ∧ objects Shopping_cart sample_db ≡ₚ (mkUserRecipe 1 2 :: objects Shopping_cart db')
       ∧ length (objects Shopping_cart sample_db) = S (length (objects Shopping_cart db'))
       ∧ (mkUserRecipe 1 2 ∉ objects Shopping_cart db')
       ∧ db' = set_objects Shopping_cart (objects Shopping_cart db') sample_db).
Proof.
  assert (NoDup (objects Shopping_cart sample_db)) as Hnd
    by (apply (bool_decide_unpack _); vm_compute; exact I).
  split; [exact Hnd|].
  exact (delete_from_spec Shopping_cart sample_db 1 2 Hnd).
Defined.

Lemma objects_with_recipes (model : EdgeModel) (rs : list Recipe) (db : Db) :
  objects model (with_recipes rs db) = objects model db.
Proof. by destruct model. Qed.

(** C10: [delete_from] never consults the [Recipe] table.  Without a
    matching row the answer is the 400 "already removed" error with its
    [errors] body, whatever the [Recipe] table holds, an empty table
    included; it is never the 404 of a missing recipe. *)
Theorem delete_from_ignores_recipes
    (model : EdgeModel) (db : Db) (rs : list Recipe) (user pk : Z) :
  mkUserRecipe user pk ∉ objects model db →
  let (response, db') := handle (delete_from model user pk) (with_recipes rs db) in
  response = Response_ (Dict [("errors", "Рецепт уже удален!")]) HTTP_400_BAD_REQUEST
  ∧ status response = 400
  ∧ status response ≠ HTTP_404_NOT_FOUND
  ∧ is_json response = true
  ∧ db' = with_recipes rs db.
Proof.
  intros Hout. rewrite delete_from_absent; [done|].
  apply filter_user_recipe_nil. by rewrite objects_with_recipes.
Qed.

Lemma delete_from_ignores_recipes_witness :
  (mkUserRecipe 1 7 ∉ objects Favorite sample_db)
  ∧ recipes (with_recipes [] sample_db) = []
  ∧ let (response, db') :=
      handle (delete_from Favorite 1 7) (with_recipes [] sample_db) in
    response = Response_ (Dict [("errors", "Рецепт уже удален!")]) HTTP_400_BAD_REQUEST
    ∧ status response = 400
    ∧ status response ≠ HTTP_404_NOT_FOUND
    ∧ is_json response = true
    ∧ db' = with_recipes [] sample_db.
Proof.
  assert (mkUserRecipe 1 7 ∉ objects Favorite sample_db) as Hout
    by (apply (bool_decide_unpack _); vm_compute; exact I).
  split; [exact Hout|]. split; [reflexivity|].
  exact (delete_from_ignores_recipes Favorite sample_db [] 1 7 Hout).
Defined.

(** ** Subscriptions *)

(** C9: a user who has no subscription to themselves and subscribes to
    themselves is not refused: the answer is 201 and the row
    (user, author = user) is appended to [Subscriptions]. *)
Theorem subscribe_to_self (db : Db) (u : Z) (me : User) :
  filter (λ a, user_id a = u) (users db) = [me] →
  mkSubscriptions u u ∉ subscriptions db →
  let (response, db') := handle (subscribe POST u u) db in
  response = Response_ (SerializerData UserSubscribeSerializer u) HTTP_201_CREATED
  ∧ status response = 201
  ∧ db' = set_subscriptions (subscriptions db ++ [mkSubscriptions u u]) db
  ∧ mkSubscriptions u u ∈ subscriptions db'.
Proof.
  intros Hme Hnone. run_view. rewrite Hme.
  assert (user_id me = u) as Hid.
  { assert (me ∈ filter (λ a, user_id a = u) (users db)) as Hin
      by (rewrite Hme; left).
    by apply list_elem_of_filter in Hin as [? _]. }
  rewrite Hid.
  assert (filter (λ s, sub_user s = u ∧ sub_author s = u) (subscriptions db) = [])
    as ->.
  { induction (subscriptions db) as [|s l IH]; [done|].
    apply not_elem_of_cons in Hnone as [Hne Hl]. rewrite filter_cons.
    destruct (decide _) as [[Hu Ha]|_]; [|auto].
    destruct s; simpl in *; congruence. }
  simpl. repeat split; try done.
  apply elem_of_app. right. left.
Qed.

Lemma subscribe_to_self_witness :
  filter (λ a, user_id a = 1) (users sample_db) = [mkUser 1 "alice"]
  ∧ (mkSubscriptions 1 1 ∉ subscriptions sample_db)
  ∧ let (response, db') := handle (subscribe POST 1 1) sample_db in
    response = Response_ (SerializerData UserSubscribeSerializer 1) HTTP_201_CREATED
    ∧ status response = 201
    ∧ db' = set_subscriptions (subscriptions sample_db ++ [mkSubscriptions 1 1]) sample_db
    ∧ mkSubscriptions 1 1 ∈ subscriptions db'.
Proof.
  assert (filter (λ a, user_id a = 1) (users sample_db) = [mkUser 1 "alice"])
    as Hme by reflexivity.
  assert (mkSubscriptions 1 1 ∉ subscriptions sample_db) as Hnone
    by (apply (bool_decide_unpack _); vm_compute; exact I).
  split; [exact Hme|]. split; [exact Hnone|].
  exact (subscribe_to_self sample_db 1 (mkUser 1 "alice") Hme Hnone).
Defined.

(** ** Deletion *)

Section DeletionProofs.
Import Deletion.

Lemma collect_cascade {A} (fk : ForeignKey) (ref : A → option Z)
    (null : A → A) (target : Z) (rows : list A) :
  on_delete fk = CASCADE →
  collect fk ref null target rows = filter (λ row, ref row ≠ Some target) rows.
Proof. intros H. unfold collect. by rewrite H. Qed.

Lemma collect_set_null {A} (fk : ForeignKey) (ref : A → option Z)
    (null : A → A) (target : Z) (rows : list A) :
  on_delete fk = SET_NULL →
  collect fk ref null target rows
  = (λ row, if decide (ref row = Some target) then null row else row) <$> rows.
Proof. intros H. unfold collect. by rewrite H. Qed.

Lemma cascade_rows {A} (f : A → Z) (pk : Z) (l : list A) (x : A) :
  x ∈ filter (λ row, Some (f row) ≠ Some pk) l ↔ x ∈ l ∧ f x ≠ pk.
Proof.
  rewrite list_elem_of_filter. split; intros [? ?]; split; congruence.
Qed.

(** C7: deleting a recipe leaves no [Favorite], [Shopping_cart] or
    [IngredientRecipe] row that points at it, keeps every such row that
    points elsewhere, and leaves the [User] table as it was, the author
    of the recipe included. *)
Theorem delete_recipe_cascades (db : Db) (pk : Z) :
  let db' := delete_recipe pk db in
  (∀ o, o ∈ favorites db' ↔ o ∈ favorites db ∧ ur_recipe o ≠ pk)
  ∧ (∀ o, o ∈ shopping_carts db' ↔ o ∈ shopping_carts db ∧ ur_recipe o ≠ pk)
  ∧ (∀ ir, ir ∈ ingredient_recipes db'
           ↔ ir ∈ ingredient_recipes db ∧ ir_recipe ir ≠ pk)
  ∧ (∀ r, r ∈ recipes db' ↔ r ∈ recipes db ∧ recipe_id r ≠ pk)
  ∧ users db' = users db
  ∧ (∀ r a, r ∈ recipes db → recipe_id r = pk → a ∈ users db →
            author r = Some (user_id a) → a ∈ users db').
Proof.
  simpl. rewrite !collect_cascade by done.
  split; [apply cascade_rows|]. split; [apply cascade_rows|].
  split; [apply cascade_rows|].
  split; [|done].
  intros r. rewrite list_elem_of_filter. tauto.
Qed.

(** C8: deleting a user deletes no recipe: the [Recipe] table keeps its
    rows, in order, with the same primary keys; every recipe the user
    authored has its author set to NULL, and every other recipe is
    untouched. *)
Theorem delete_user_nulls_author (db : Db) (pk : Z) :
  let db' := delete_user pk db in
  recipe_id <$> recipes db' = recipe_id <$> recipes db
  ∧ length (recipes db') = length (recipes db)
  ∧ (∀ i r, recipes db !! i = Some r → author r = Some pk →
            recipes db' !! i = Some (mkRecipe (recipe_id r) (recipe_name r) None))
  ∧ (∀ i r, recipes db !! i = Some r → author r ≠ Some pk →
            recipes db' !! i = Some r)
  ∧ (∀ r', r' ∈ recipes db' → author r' ≠ Some pk).
Proof.
  simpl. rewrite collect_set_null by done.
  split; [|split; [|split; [|split]]].
  - rewrite <- list_fmap_compose. apply list_fmap_ext.
    intros i r _. simpl. by destruct (decide _).
  - by rewrite length_fmap.
  - intros i r Hi Ha. rewrite list_lookup_fmap, Hi. simpl.
    by destruct (decide _).
  - intros i r Hi Ha. rewrite list_lookup_fmap, Hi. simpl.
    by destruct (decide _).
  - intros r' [r [-> Hr]]%list_elem_of_fmap.
    destruct (decide _); [done|]. done.
Qed.
End DeletionProofs.

(** ** The shopping list download *)

Lemma cart_nonempty (user : Z) (db : Db) :
  (∃ pk, in_cart user db pk)
  ↔ exists_ (filter (λ sc, ur_user sc = user) (shopping_carts db)) = true.
Proof.
  rewrite exists_true. unfold in_cart. split.
  - intros [pk Hin] Hnil.
    assert (mkUserRecipe user pk ∈ filter (λ sc, ur_user sc = user) (shopping_carts db))
      as Hf by (by apply list_elem_of_filter).
    rewrite Hnil in Hf. by apply not_elem_of_nil in Hf.
  - destruct (filter _ _) as [|sc l] eqn:Hf; [done|]. intros _.
    assert (sc ∈ filter (λ sc, ur_user sc = user) (shopping_carts db)) as Hin
      by (rewrite Hf; left).
    apply list_elem_of_filter in Hin as [Hu Hin].
    exists (ur_recipe sc). destruct sc; simpl in *. by subst.
Qed.

Lemma download_empty (collate : relation string) `{!RelDecision collate}
    (user : Z) (db : Db) :
  ¬ (∃ pk, in_cart user db pk) →
  handle (download_shopping_cart collate user) db
  = (Response_ NoData HTTP_400_BAD_REQUEST, db).
Proof.
  rewrite cart_nonempty. intros Hempty%not_true_is_false.
  run_view. by rewrite Hempty.
Qed.

Lemma download_nonempty (collate : relation string) `{!RelDecision collate}
    (user : Z) (db : Db) :
  (∃ pk, in_cart user db pk) →
  handle (download_shopping_cart collate user) db
  = (mkResponse
       (Text (render_shopping_list (shopping_cart_ingredients collate user db)))
       HTTP_200_OK
       [("Content-Type", "text/plain");
        ("Content-Disposition",
         "attachment; filename=" +:+ dquote +:+ "shopping_list.txt.txt" +:+ dquote)],
     db).
Proof.
  rewrite cart_nonempty. intros Hin. run_view. by rewrite Hin.
Qed.

(** C6: a user without cart rows gets a bare 400: no list, and no body at
    all, where the refusals of [add_to] and [delete_from] carry a JSON
    object.  User 2 of the sample store has an empty cart. *)
Theorem download_empty_cart_bare_400 :
  ¬ (∃ pk, in_cart 2 sample_db pk)
  ∧ handle (download_shopping_cart String.le 2) sample_db
    = (mkResponse NoData 400 [], sample_db)
  ∧ is_json (handle (download_shopping_cart String.le 2) sample_db).1 = false
  ∧ is_json duplicate_response = true
  ∧ is_json removed_response = true.
Proof.
  split; [|by vm_compute].
  rewrite cart_nonempty. by vm_compute.
Qed.

(** C5: the download of a non-empty cart is [text/plain] and an
    attachment, but the file name in [Content-Disposition] is
    [shopping_list.txt.txt]: the extension is appended to a name that
    already has it.  User 1 of the sample store has two recipes in the
    cart. *)
Theorem download_attachment_filename :
  let response := (handle (download_shopping_cart String.le 1) sample_db).1 in
  status response = 200
  ∧ header "Content-Type" response = Some "text/plain"
  ∧ header "Content-Disposition" response
    = Some ("attachment; filename=" +:+ dquote +:+ "shopping_list.txt.txt" +:+ dquote)
  ∧ header "Content-Disposition" response
    ≠ Some ("attachment; filename=" +:+ dquote +:+ "shopping_list.txt" +:+ dquote).
Proof. by vm_compute. Qed.

(** C4, as stated, fails: the document of the sample cart is not the
    lines of its triples joined by newlines, its first line starts with
    the heading. *)
Lemma download_not_only_lines :
  let rows := shopping_cart_ingredients String.le 1 sample_db in
  (∃ pk, in_cart 1 sample_db pk)
  ∧ content (handle (download_shopping_cart String.le 1) sample_db).1
    = Text ("Список Покупок - egg (pcs) -  - 3" +:+ newline +:+ " - flour (g) -  - 150")
  ∧ content (handle (download_shopping_cart String.le 1) sample_db).1
    ≠ Text (String.concat newline (shopping_list_line <$> rows)).
Proof.
  split; [exists 1; left|]. by vm_compute.
Qed.

(** C4, amended: the document of a non-empty cart starts with the heading
    and ends with the renderings of the triples, one per triple in the
    order of the list, joined by newlines; a rendering is
    [ - <name> (<unit>) -  - <amount>], the amount in decimal. *)
Theorem download_renders_lines (collate : relation string)
    `{!RelDecision collate} (user : Z) (db : Db) :
  (∃ pk, in_cart user db pk) →
  let rows := shopping_cart_ingredients collate user db in
  ∃ text,
    content (handle (download_shopping_cart collate user) db).1 = Text text
    ∧ (∃ rest, text = "Список Покупок" +:+ rest)
    ∧ (∃ front, text = front +:+ String.concat newline (shopping_list_line <$> rows))
    ∧ length (shopping_list_line <$> rows) = length rows
    ∧ (∀ g, shopping_list_line g
            = " - " +:+ ingredient__name g
              +:+ " (" +:+ ingredient__measurement_unit g
              +:+ ") -  - " +:+ pretty (amount_sum g)).
Proof.
  intros Hcart rows. rewrite (download_nonempty _ _ _ Hcart). simpl.
  exists (render_shopping_list rows). split; [done|].
  split; [by eexists|]. split; [by eexists|].
  split; [by rewrite length_fmap|]. done.
Qed.

Lemma download_renders_lines_witness :
  (∃ pk, in_cart 1 sample_db pk)
  ∧ let rows := shopping_cart_ingredients String.le 1 sample_db in
    ∃ text,
      content (handle (download_shopping_cart String.le 1) sample_db).1 = Text text
      ∧ (∃ rest, text = "Список Покупок" +:+ rest)
      ∧ (∃ front, text = front +:+ String.concat newline (shopping_list_line <$> rows))
      ∧ length (shopping_list_line <$> rows) = length rows
      ∧ (∀ g, shopping_list_line g
              = " - " +:+ ingredient__name g
                +:+ " (" +:+ ingredient__measurement_unit g
                +:+ ") -  - " +:+ pretty (amount_sum g)).
Proof.
  assert (∃ pk, in_cart 1 sample_db pk) as Hcart by (exists 1; left).
  split; [exact Hcart|].
  exact (download_renders_lines String.le 1 sample_db Hcart).
Defined.

(** ** The aggregation *)

Section Aggregation.
Context (user : Z) (db : Db).
Hypothesis cart_unique : NoDup (shopping_carts db).
Hypothesis ingredient_pk : NoDup (ingredient_id <$> ingredients db).

(** A row of a recipe in the cart, with its ingredient resolved,
    contributes its quantity once to the group of its key and nothing to
    any other group. *)
Lemma join_row_group (ir : IngredientRecipe) (k : string * string) :
  snd <$> filter (λ row, row.1 = k) (join_row user db ir)
  = if decide (in_cart user db (ir_recipe ir) ∧ has_key db ir k)
    then [amount ir] else [].
Proof.
  unfold join_row.
  rewrite (list_filter_iff _ (λ sc, sc = mkUserRecipe user (ir_recipe ir)))
    by (intros sc; apply user_recipe_eta).
  destruct (filter_eq_unique (mkUserRecipe user (ir_recipe ir)) (shopping_carts db))
    as [[-> Hnone]|[-> Hsc]]; [done|..].
  { simpl. destruct (decide _) as [[Hin _]|_]; [|done].
    by destruct Hnone. }
  simpl. rewrite app_nil_r.
  destruct (filter_unique ingredient_id (ir_ingredient ir) (ingredients db))
    as [[-> Hnone]|(ing & Hf & Hing & Hid)]; [done|..].
  { simpl. destruct (decide _) as [[_ Hk]|_]; [|done].
    apply Exists_exists in Hk as (ing & Hing & Hid & _).
    by destruct (Hnone ing Hing). }
  rewrite Hf. simpl. rewrite filter_cons, filter_nil. simpl.
  destruct (decide ((name ing, measurement_unit ing) = k)) as [Hk|Hk].
  - destruct (decide _) as [|Hn]; [done|].
    destruct Hn. split; [done|]. apply Exists_exists. by exists ing.
  - destruct (decide _) as [[_ Hex]|]; [|done].
    apply Exists_exists in Hex as (ing' & Hing' & Hid' & Hk').
    assert (ing' ∈ filter (λ i, ingredient_id i = ir_ingredient ir) (ingredients db))
      as Hin' by (by apply list_elem_of_filter).
    rewrite Hf in Hin'. apply list_elem_of_singleton in Hin'. by subst ing'.
Qed.

Lemma bind_join_group (l : list IngredientRecipe) (k : string * string) :
  snd <$> filter (λ row, row.1 = k) (l ≫= join_row user db)
  = amount <$> filter (λ ir, in_cart user db (ir_recipe ir) ∧ has_key db ir k) l.
Proof.
  induction l as [|ir l IH]; [done|].
  rewrite bind_cons, filter_app, fmap_app, IH, join_row_group, filter_cons.
  by destruct (decide _).
Qed.

Lemma cart_join_group (k : string * string) :
  snd <$> filter (λ row, row.1 = k) (cart_join user db)
  = amount <$> group_rows user db k.
Proof. apply bind_join_group. Qed.

Lemma cart_join_key (k : string * string) :
  k ∈ fst <$> cart_join user db ↔ group_rows user db k ≠ [].
Proof.
  assert (k ∈ fst <$> cart_join user db
          ↔ snd <$> filter (λ row, row.1 = k) (cart_join user db) ≠ []) as ->.
  { rewrite list_elem_of_fmap. split.
    - intros (row & -> & Hrow) Hnil. apply fmap_nil_inv in Hnil.
      assert (row ∈ filter (λ r, r.1 = row.1) (cart_join user db)) as Hf
        by (by apply list_elem_of_filter).
      rewrite Hnil in Hf. by apply not_elem_of_nil in Hf.
    - destruct (filter _ _) as [|row rest] eqn:Hf; [done|]. intros _.
      assert (row ∈ filter (λ r, r.1 = k) (cart_join user db)) as Hin
        by (rewrite Hf; left).
      apply list_elem_of_filter in Hin as [Hk Hin]. by exists row. }
  rewrite cart_join_group. split.
  - intros Hne Hnil. by rewrite Hnil in Hne.
  - intros Hne Hnil. by apply fmap_nil_inv in Hnil.
Qed.
End Aggregation.

Lemma key_values_annotate_sum (rows : list (string * string * Z)) :
  key <$> values_annotate_sum rows = remove_dups (fst <$> rows).
Proof.
  unfold values_annotate_sum. rewrite <- list_fmap_compose.
  rewrite <- (list_fmap_id (remove_dups (fst <$> rows))) at 2.
  apply list_fmap_ext. by intros i [n m] _.
Qed.

Lemma by_name_trans (collate : relation string) :
  Transitive collate → Transitive (by_name collate).
Proof. intros Ht a b c. unfold by_name. apply Ht. Qed.

Lemma by_name_total (collate : relation string) :
  Total collate → Total (by_name collate).
Proof. intros Ht a b. unfold by_name. apply Ht. Qed.

(** C1: for a user with a non-empty cart the list behind the download has
    one row per (ingredient name, measurement unit) among the
    [IngredientRecipe] rows of the recipes in the cart, every such row is
    counted in the group of its ingredient, the quantity of a group is the
    sum of [amount] over its rows, and the rows come ordered by ingredient
    name.  For recipe A (2 eggs, 100 flour) and recipe B (1 egg, 50 flour)
    the list is egg 3, flour 150, in that order. *)
Theorem shopping_cart_ingredients_spec :
  (∀ (collate : relation string) `{!RelDecision collate},
     Transitive collate → Total collate →
     ∀ (user : Z) (db : Db),
       NoDup (shopping_carts db) →
       NoDup (ingredient_id <$> ingredients db) →
       (∃ pk, in_cart user db pk) →
       let rows := shopping_cart_ingredients collate user db in
       content (handle (download_shopping_cart collate user) db).1
       = Text (render_shopping_list rows)
       ∧ NoDup (key <$> rows)
       ∧ (∀ k, k ∈ key <$> rows ↔ group_rows user db k ≠ [])
       ∧ (∀ ir ing, ir ∈ ingredient_recipes db → in_cart user db (ir_recipe ir) →
                    ing ∈ ingredients db → ingredient_id ing = ir_ingredient ir →
                    ∃ g, g ∈ rows ∧ key g = (name ing, measurement_unit ing)
                         ∧ ir ∈ group_rows user db (key g))
       ∧ (∀ g, g ∈ rows → amount_sum g = Sum (amount <$> group_rows user db (key g)))
       ∧ StronglySorted (by_name collate) rows)
  ∧ shopping_cart_ingredients String.le 1 sample_db
    = [mkValuesRow "egg" "pcs" 3; mkValuesRow "flour" "g" 150].
Proof.
  split; [|by vm_compute].
  intros collate Hdec Htrans Htotal user db Hcart Hpk Hnonempty rows.
  assert (rows ≡ₚ values_annotate_sum (cart_join user db)) as Hperm
    by apply merge_sort_Permutation.
  assert (∀ k, k ∈ key <$> rows ↔ group_rows user db k ≠ []) as Hkeys.
  { intros k. rewrite Hperm, key_values_annotate_sum, elem_of_remove_dups.
    by apply cart_join_key. }
  split; [by rewrite (download_nonempty _ _ _ Hnonempty)|].
  split; [rewrite Hperm, key_values_annotate_sum; apply NoDup_remove_dups|].
  split; [exact Hkeys|].
  split; [|split].
  - intros ir ing Hir Hin Hing Hid.
    assert (ir ∈ group_rows user db (name ing, measurement_unit ing)) as Hgroup.
    { apply list_elem_of_filter. split; [|done]. split; [done|].
      apply Exists_exists. by exists ing. }
    assert ((name ing, measurement_unit ing) ∈ key <$> rows) as Hk.
    { apply Hkeys. intros Hnil. rewrite Hnil in Hgroup.
      by apply not_elem_of_nil in Hgroup. }
    apply list_elem_of_fmap in Hk as (g & Hg & Hrow).
    exists g. split; [done|]. split; [done|]. by rewrite <- Hg.
  - intros g Hg. rewrite Hperm in Hg.
    apply list_elem_of_fmap in Hg as ([n m] & -> & _). simpl.
    unfold key. simpl. by rewrite <- cart_join_group.
  - apply StronglySorted_merge_sort;
      [by apply by_name_trans | by apply by_name_total].
Qed.

Lemma shopping_cart_ingredients_spec_witness :
  NoDup (shopping_carts sample_db)
  ∧ NoDup (ingredient_id <$> ingredients sample_db)
  ∧ (∃ pk, in_cart 1 sample_db pk)
  ∧ let rows := shopping_cart_ingredients String.le 1 sample_db in
    content (handle (download_shopping_cart String.le 1) sample_db).1
    = Text (render_shopping_list rows)
    ∧ NoDup (key <$> rows)
    ∧ (∀ k, k ∈ key <$> rows ↔ group_rows 1 sample_db k ≠ [])
    ∧ (∀ ir ing, ir ∈ ingredient_recipes sample_db → in_cart 1 sample_db (ir_recipe ir) →
                 ing ∈ ingredients sample_db → ingredient_id ing = ir_ingredient ir →
                 ∃ g, g ∈ rows ∧ key g = (name ing, measurement_unit ing)
                      ∧ ir ∈ group_rows 1 sample_db (key g))
    ∧ (∀ g, g ∈ rows → amount_sum g = Sum (amount <$> group_rows 1 sample_db (key g)))
    ∧ StronglySorted (by_name String.le) rows.
Proof.
  assert (NoDup (shopping_carts sample_db)) as Hcart
    by (apply (bool_decide_unpack _); vm_compute; exact I).
  assert (NoDup (ingredient_id <$> ingredients sample_db)) as Hpk
    by (apply (bool_decide_unpack _); vm_compute; exact I).
  assert (∃ pk, in_cart 1 sample_db pk) as Hnonempty by (exists 1; left).
  split; [exact Hcart|]. split; [exact Hpk|]. split; [exact Hnonempty|].
  exact (proj1 shopping_cart_ingredients_spec String.le _ _ _
               1 sample_db Hcart Hpk Hnonempty).
Defined.

(** * Further properties of the views *)

(** ** [add_to] and [delete_from] *)

Lemma filter_absent {A B} `{EqDecision B} (f : A → B) (v : B) (l : list A) :
  v ∉ f <$> l → filter (λ x, f x = v) l = [].
Proof.
  induction l as [|a l IH]; [done|].
  rewrite fmap_cons. intros [Hne Hl]%not_elem_of_cons. rewrite filter_cons.
  destruct (decide (f a = v)); [congruence | auto].
Qed.

Lemma filter_present {A B} `{EqDecision B} (f : A → B) (v : B) (l : list A) :
  NoDup (f <$> l) → v ∈ f <$> l →
  ∃ x, filter (λ x, f x = v) l = [x] ∧ x ∈ l ∧ f x = v.
Proof.
  intros Hnd Hin. destruct (filter_unique f v l Hnd) as [[_ Hall]|Hx]; [|done].
  apply list_elem_of_fmap in Hin as (x & -> & Hx). by destruct (Hall x Hx).
Qed.

Lemma set_objects_id (model : EdgeModel) (db : Db) :
  set_objects model (objects model db) db = db.
Proof. by destruct model, db. Qed.

Lemma set_objects_twice (model : EdgeModel) (rows rows' : list UserRecipe) (db : Db) :
  set_objects model rows' (set_objects model rows db) = set_objects model rows' db.
Proof. by destruct model. Qed.

Lemma filter_app_absent (user pk : Z) (l : list UserRecipe) :
  mkUserRecipe user pk ∉ l →
  filter (λ o, ¬ (ur_user o = user ∧ ur_recipe o = pk)) (l ++ [mkUserRecipe user pk]) = l.
Proof.
  intros Hout.
  rewrite (list_filter_iff _ (λ o, o ≠ mkUserRecipe user pk))
    by (intros o; by rewrite user_recipe_eta).
  rewrite filter_app, filter_ne_absent by done.
  rewrite filter_cons, filter_nil.
  destruct (decide _) as [Hne|_]; [by destruct Hne|]. by rewrite app_nil_r.
Qed.

(** X1: [add_to] for a recipe id that no [Recipe] row has never inserts a
    row: the store is as before, the answer is not a 201, and it is the 404
    of [get_object_or_404] when the pair was not in the table. *)
Theorem add_to_unknown_recipe (model : EdgeModel) (db : Db) (user pk : Z) :
  pk ∉ recipe_ids db →
  let (response, db') := handle (add_to model user pk) db in
  db' = db
  ∧ status response ≠ HTTP_201_CREATED
  ∧ (mkUserRecipe user pk ∉ objects model db →
     response = Response_ (Dict [("detail", "Not found.")]) HTTP_404_NOT_FOUND).
Proof.
  intros Hnone%filter_absent.
  destruct (decide (mkUserRecipe user pk ∈ objects model db)) as [Hin|Hout].
  - rewrite add_to_present.
    + by repeat split.
    + intros Hnil. by apply filter_user_recipe_nil in Hnil.
  - rewrite add_to_missing_recipe; [by repeat split| |done].
    by apply filter_user_recipe_nil.
Qed.

Lemma add_to_unknown_recipe_witness :
  (7 ∉ recipe_ids sample_db)
  ∧ let (response, db') := handle (add_to Shopping_cart 1 7) sample_db in
    db' = sample_db
    ∧ status response ≠ HTTP_201_CREATED
    ∧ (mkUserRecipe 1 7 ∉ objects Shopping_cart sample_db →
       response = Response_ (Dict [("detail", "Not found.")]) HTTP_404_NOT_FOUND).
Proof.
  assert (7 ∉ recipe_ids sample_db) as Hnone
    by (apply (bool_decide_unpack _); vm_compute; exact I).
  split; [exact Hnone|].
  exact (add_to_unknown_recipe Shopping_cart sample_db 1 7 Hnone).
Defined.

(** X2: [add_to] for an existing recipe that is not yet in the table
    answers 201 with the short form of that recipe and appends exactly one
    row: the pair is then in the table once, the count of every other pair
    is what it was, and no other table changes. *)
Theorem add_to_inserts (model : EdgeModel) (db : Db) (user pk : Z) :
  NoDup (recipe_ids db) →
  pk ∈ recipe_ids db →
  mkUserRecipe user pk ∉ objects model db →
  let (response, db') := handle (add_to model user pk) db in
  response = Response_ (SerializerData RecipeShortSerializer pk) HTTP_201_CREATED
  ∧ objects model db' = objects model db ++ [mkUserRecipe user pk]
  ∧ edge_count model db' user pk = 1%nat
  ∧ (∀ u p, mkUserRecipe u p ≠ mkUserRecipe user pk →
            edge_count model db' u p = edge_count model db u p)
  ∧ db' = set_objects model (objects model db') db.
Proof.
  intros Hnd Hin Hout.
  destruct (filter_present recipe_id pk (recipes db) Hnd Hin) as (r & Hr & _ & _).
  rewrite (add_to_absent _ _ _ _ r) by (by apply filter_user_recipe_nil || done).
  rewrite objects_set_objects.
  split; [done|]. split; [done|]. split; [|split; [|done]].
  - unfold edge_count, filter_user_recipe. rewrite objects_set_objects, filter_app.
    fold (filter_user_recipe model user pk db).
    rewrite (proj2 (filter_user_recipe_nil model user pk db) Hout).
    rewrite filter_cons, filter_nil. simpl.
    destruct (decide _) as [|Hn]; [done|]. by destruct Hn.
  - intros u p Hne. unfold edge_count, filter_user_recipe.
    rewrite objects_set_objects, filter_app, length_app.
    rewrite filter_cons, filter_nil. simpl.
    destruct (decide _) as [[<- <-]|_]; [by destruct Hne|]. simpl. lia.
Qed.

Lemma add_to_inserts_witness :
  NoDup (recipe_ids sample_db)
  ∧ 2 ∈ recipe_ids sample_db
  ∧ (mkUserRecipe 1 2 ∉ objects Favorite sample_db)
  ∧ let (response, db') := handle (add_to Favorite 1 2) sample_db in
    response = Response_ (SerializerData RecipeShortSerializer 2) HTTP_201_CREATED
    ∧ objects Favorite db' = objects Favorite sample_db ++ [mkUserRecipe 1 2]
    ∧ edge_count Favorite db' 1 2 = 1%nat
    ∧ (∀ u p, mkUserRecipe u p ≠ mkUserRecipe 1 2 →
              edge_count Favorite db' u p = edge_count Favorite sample_db u p)
    ∧ db' = set_objects Favorite (objects Favorite db') sample_db.
Proof.
  assert (NoDup (recipe_ids sample_db)) as Hnd
    by (apply (bool_decide_unpack _); vm_compute; exact I).
  assert (2 ∈ recipe_ids sample_db) as Hin
    by (apply (bool_decide_unpack _); vm_compute; exact I).
  assert (mkUserRecipe 1 2 ∉ objects Favorite sample_db) as Hout
    by (apply (bool_decide_unpack _); vm_compute; exact I).
  split; [exact Hnd|]. split; [exact Hin|]. split; [exact Hout|].
  exact (add_to_inserts Favorite sample_db 1 2 Hnd Hin Hout).
Defined.

(** X3: adding a recipe and removing it again gives 201, then 204, and the
    store that was there before the two requests. *)
Theorem add_then_delete (model : EdgeModel) (db : Db) (user pk : Z) :
  NoDup (recipe_ids db) →
  pk ∈ recipe_ids db →
  mkUserRecipe user pk ∉ objects model db →
  let (added, db1) := handle (add_to model user pk) db in
  let (removed, db2) := handle (delete_from model user pk) db1 in
  status added = HTTP_201_CREATED
  ∧ removed = Response_ NoData HTTP_204_NO_CONTENT
  ∧ db2 = db.
Proof.
  intros Hnd Hin Hout.
  destruct (filter_present recipe_id pk (recipes db) Hnd Hin) as (r & Hr & _ & _).
  rewrite (add_to_absent _ _ _ _ r) by (by apply filter_user_recipe_nil || done).
  rewrite delete_from_present.
  - rewrite objects_set_objects, set_objects_twice, filter_app_absent by done.
    by rewrite set_objects_id.
  - intros Hnil. apply filter_user_recipe_nil in Hnil. apply Hnil.
    rewrite objects_set_objects. apply elem_of_app. right. left.
Qed.

Lemma add_then_delete_witness :
  NoDup (recipe_ids sample_db)
  ∧ 2 ∈ recipe_ids sample_db
  ∧ (mkUserRecipe 1 2 ∉ objects Favorite sample_db)
  ∧ let (added, db1) := handle (add_to Favorite 1 2) sample_db in
    let (removed, db2) := handle (delete_from Favorite 1 2) db1 in
    status added = HTTP_201_CREATED
    ∧ removed = Response_ NoData HTTP_204_NO_CONTENT
    ∧ db2 = sample_db.
Proof.
  assert (NoDup (recipe_ids sample_db)) as Hnd
    by (apply (bool_decide_unpack _); vm_compute; exact I).
  assert (2 ∈ recipe_ids sample_db) as Hin
    by (apply (bool_decide_unpack _); vm_compute; exact I).
  assert (mkUserRecipe 1 2 ∉ objects Favorite sample_db) as Hout
    by (apply (bool_decide_unpack _); vm_compute; exact I).
  split; [exact Hnd|]. split; [exact Hin|]. split; [exact Hout|].
  exact (add_then_delete Favorite sample_db 1 2 Hnd Hin Hout).
Defined.

Lemma delete_from_gone (model : EdgeModel) (db : Db) (user pk : Z) :
  mkUserRecipe user pk ∉ objects model (handle (delete_from model user pk) db).2.
Proof.
  destruct (decide (mkUserRecipe user pk ∈ objects model db)) as [Hin|Hout].
  - rewrite delete_from_present.
    + simpl. rewrite objects_set_objects, filter_not_user_recipe.
      intros [Hne _]%list_elem_of_filter. by apply Hne.
    + intros Hnil. by apply filter_user_recipe_nil in Hnil.
  - by rewrite delete_from_absent by (by apply filter_user_recipe_nil).
Qed.

(** X4: whatever the table holds, the pair even several times, after
    [delete_from] no row of the pair is left, every row of another pair is
    still there, and a second [delete_from] answers 400 "already removed"
    and changes nothing. *)
Theorem delete_from_twice (model : EdgeModel) (db : Db) (user pk : Z) :
  let (first, db1) := handle (delete_from model user pk) db in
  let (second, db2) := handle (delete_from model user pk) db1 in
  edge_count model db1 user pk = 0%nat
  ∧ (∀ o, o ≠ mkUserRecipe user pk → o ∈ objects model db1 ↔ o ∈ objects model db)
  ∧ second = Response_ (Dict [("errors", "Рецепт уже удален!")]) HTTP_400_BAD_REQUEST
  ∧ db2 = db1.
Proof.
  pose proof (delete_from_gone model db user pk) as Hgone.
  destruct (handle (delete_from model user pk) db) as [first db1] eqn:Hfirst.
  simpl in Hgone. apply filter_user_recipe_nil in Hgone.
  rewrite (delete_from_absent _ _ _ _ Hgone).
  split; [by unfold edge_count; rewrite Hgone|]. split; [|done].
  intros o Hne.
  destruct (decide (mkUserRecipe user pk ∈ objects model db)) as [Hin|Hout].
  - rewrite delete_from_present in Hfirst.
    + injection Hfirst as _ <-.
      rewrite objects_set_objects, filter_not_user_recipe, list_elem_of_filter.
      tauto.
    + intros Hnil. by apply filter_user_recipe_nil in Hnil.
  - rewrite delete_from_absent in Hfirst by (by apply filter_user_recipe_nil).
    by injection Hfirst as _ <-.
Qed.

Lemma toggle_set_objects (model : EdgeModel) (method : Method) (user pk : Z) (db : Db) :
  let v := match method with
           | POST => add_to model user pk
           | DELETE => delete_from model user pk
           end in
  (handle v db).2 = set_objects model (objects model (handle v db).2) db.
Proof.
  destruct method; run_view;
    destruct (exists_ (filter_user_recipe model user pk db)); simpl;
    rewrite ?set_objects_id; try done.
  - destruct (filter (λ r, recipe_id r = pk) (recipes db)) as [|r [|??]]; simpl;
      rewrite ?set_objects_id; try done.
    by rewrite objects_set_objects.
  - by rewrite objects_set_objects.
Qed.

(** X5: the two actions do not touch each other's table, nor any other:
    [favorite] changes at most [Favorite], [shopping_cart] at most
    [Shopping_cart]. *)
Theorem toggle_frame (method : Method) (user pk : Z) (db : Db) :
  (handle (favorite method user pk) db).2
  = set_objects Favorite
      (objects Favorite (handle (favorite method user pk) db).2) db
  ∧ (handle (shopping_cart method user pk) db).2
    = set_objects Shopping_cart
        (objects Shopping_cart (handle (shopping_cart method user pk) db).2) db
  ∧ shopping_carts (handle (favorite method user pk) db).2 = shopping_carts db
  ∧ favorites (handle (shopping_cart method user pk) db).2 = favorites db.
Proof.
  split; [apply (toggle_set_objects Favorite)|].
  split; [apply (toggle_set_objects Shopping_cart)|].
  split.
  - destruct method; simpl.
    + by apply (add_to_other_objects Favorite Shopping_cart).
    + by apply (delete_from_other_objects Favorite Shopping_cart).
  - destruct method; simpl.
    + by apply (add_to_other_objects Shopping_cart Favorite).
    + by apply (delete_from_other_objects Shopping_cart Favorite).
Qed.

(** X6: both actions, with either method, keep "at most one row per
    (user, recipe)" in both tables. *)
Theorem toggles_keep_unique (method : Method) (user pk : Z) (db : Db) :
  edges_unique db →
  edges_unique (handle (favorite method user pk) db).2
  ∧ edges_unique (handle (shopping_cart method user pk) db).2.
Proof.
  intros Hu. split; intros model.
  - apply (toggle_NoDup Favorite), Hu.
  - apply (toggle_NoDup Shopping_cart), Hu.
Qed.

Lemma sample_db_edges_unique : edges_unique sample_db.
Proof. intros []; apply (bool_decide_unpack _); vm_compute; exact I. Qed.

Lemma toggles_keep_unique_witness :
  edges_unique sample_db
  ∧ edges_unique (handle (favorite POST 1 2) sample_db).2
  ∧ edges_unique (handle (shopping_cart POST 1 2) sample_db).2.
Proof.
  split; [exact sample_db_edges_unique|].
  exact (toggles_keep_unique POST 1 2 sample_db sample_db_edges_unique).
Defined.

(** ** Referential integrity *)

Lemma toggle_objects_elem (model : EdgeModel) (method : Method) (user pk : Z)
    (db : Db) (o : UserRecipe) :
  let v := match method with
           | POST => add_to model user pk
           | DELETE => delete_from model user pk
           end in
  o ∈ objects model (handle v db).2 →
  o ∈ objects model db ∨ (o = mkUserRecipe user pk ∧ pk ∈ recipe_ids db).
Proof.
  destruct method; run_view;
    destruct (exists_ (filter_user_recipe model user pk db)); simpl; auto.
  - destruct (filter (λ r, recipe_id r = pk) (recipes db)) as [|r [|??]] eqn:Hr;
      simpl; auto.
    rewrite objects_set_objects.
    intros [Ho|Ho%list_elem_of_singleton]%elem_of_app; [by left|right].
    assert (r ∈ filter (λ r, recipe_id r = pk) (recipes db)) as Hin
      by (rewrite Hr; left).
    apply list_elem_of_filter in Hin as [Hid Hin].
    split; [by rewrite Ho, Hid|]. rewrite <- Hid. by apply list_elem_of_fmap_2.
  - rewrite objects_set_objects. intros [_ Ho]%list_elem_of_filter. by left.
Qed.

Lemma set_objects_integrity (model : EdgeModel) (rows : list UserRecipe) (db : Db) :
  referential_integrity db →
  (∀ o, o ∈ rows → ur_user o ∈ user_ids db ∧ ur_recipe o ∈ recipe_ids db) →
  referential_integrity (set_objects model rows db).
Proof.
  intros (Hf & Hc & Hs & Hi & Ht & Ha) Hrows.
  cbv [referential_integrity user_ids recipe_ids ingredient_ids] in *.
  destruct model; simpl; split_and!; assumption.
Qed.

Lemma toggle_integrity (model : EdgeModel) (method : Method) (user pk : Z) (db : Db) :
  referential_integrity db →
  user ∈ user_ids db →
  referential_integrity
    (handle (match method with
             | POST => add_to model user pk
             | DELETE => delete_from model user pk
             end) db).2.
Proof.
  intros Hri Huser. rewrite (toggle_set_objects model method).
  apply set_objects_integrity; [done|].
  intros o [Ho|[-> Hpk]]%toggle_objects_elem; [|done].
  destruct Hri as (Hf & Hc & _). destruct model; [by apply Hf | by apply Hc].
Qed.

(** X7: [favorite] and [shopping_cart], called by a user of the [User]
    table, keep every foreign key of the store pointing at a row that is
    there: a row is created only for a recipe that [get_object_or_404] has
    found. *)
Theorem toggles_keep_integrity (method : Method) (user pk : Z) (db : Db) :
  referential_integrity db →
  user ∈ user_ids db →
  referential_integrity (handle (favorite method user pk) db).2
  ∧ referential_integrity (handle (shopping_cart method user pk) db).2.
Proof.
  intros Hri Huser. split.
  - by apply (toggle_integrity Favorite).
  - by apply (toggle_integrity Shopping_cart).
Qed.

Lemma sample_db_integrity : referential_integrity sample_db.
Proof.
  unfold referential_integrity. split_and!.
  - intros o Ho. rows_cases Ho. split; in_sample.
  - intros o Ho. rows_cases Ho; split; in_sample.
  - intros s Hs. by apply not_elem_of_nil in Hs.
  - intros ir Hir. rows_cases Hir; split; in_sample.
  - intros t Ht. by apply not_elem_of_nil in Ht.
  - intros r u Hr. rows_cases Hr; intros [= <-]; in_sample.
Qed.

Lemma toggles_keep_integrity_witness :
  referential_integrity sample_db
  ∧ 1 ∈ user_ids sample_db
  ∧ referential_integrity (handle (favorite POST 1 2) sample_db).2
  ∧ referential_integrity (handle (shopping_cart DELETE 1 2) sample_db).2.
Proof.
  assert (1 ∈ user_ids sample_db) as Huser by left.
  split; [exact sample_db_integrity|]. split; [exact Huser|].
  split.
  - exact (proj1 (toggles_keep_integrity POST 1 2 sample_db sample_db_integrity Huser)).
  - exact (proj2 (toggles_keep_integrity DELETE 1 2 sample_db sample_db_integrity Huser)).
Defined.

(** ** Deleting users and recipes *)

Section DeletionFurther.
Import Deletion.

Lemma elem_of_fmap_filter_ne {A} (f : A → Z) (pk x : Z) (l : list A) :
  x ∈ f <$> l → x ≠ pk → x ∈ f <$> filter (λ row, f row ≠ pk) l.
Proof.
  intros (row & -> & Hrow)%list_elem_of_fmap Hne.
  apply list_elem_of_fmap_2. by apply list_elem_of_filter.
Qed.

Lemma delete_user_recipe_ids (db : Db) (pk : Z) :
  recipe_ids (delete_user pk db) = recipe_ids db.
Proof.
  unfold recipe_ids. simpl. rewrite collect_set_null by done.
  rewrite <- list_fmap_compose. apply list_fmap_ext.
  intros i r _. simpl. by destruct (decide _).
Qed.

(** X8: deleting a user takes along the user's [Favorite] and
    [Shopping_cart] rows and every [Subscriptions] row that has the user as
    subscriber or as author; the rows of other users stay, and the
    ingredient tables are untouched. *)
Theorem delete_user_cascades (db : Db) (pk : Z) :
  let db' := delete_user pk db in
  (∀ u, u ∈ users db' ↔ u ∈ users db ∧ user_id u ≠ pk)
  ∧ (∀ o, o ∈ favorites db' ↔ o ∈ favorites db ∧ ur_user o ≠ pk)
  ∧ (∀ o, o ∈ shopping_carts db' ↔ o ∈ shopping_carts db ∧ ur_user o ≠ pk)
  ∧ (∀ s, s ∈ subscriptions db'
          ↔ s ∈ subscriptions db ∧ sub_user s ≠ pk ∧ sub_author s ≠ pk)
  ∧ ingredients db' = ingredients db
  ∧ ingredient_recipes db' = ingredient_recipes db
  ∧ recipe_tags db' = recipe_tags db.
Proof.
  simpl. rewrite !collect_cascade by done.
  split; [intros u; rewrite list_elem_of_filter; tauto|].
  split; [apply cascade_rows|]. split; [apply cascade_rows|].
  split; [|done].
  intros s. rewrite !cascade_rows. tauto.
Qed.

Lemma delete_recipe_integrity (db : Db) (pk : Z) :
  referential_integrity db → referential_integrity (delete_recipe pk db).
Proof.
  intros (Hf & Hc & Hs & Hi & Ht & Ha).
  unfold referential_integrity, user_ids, recipe_ids, ingredient_ids in *.
  simpl. rewrite !collect_cascade by done. split_and!.
  - intros o [Ho Hne]%cascade_rows. destruct (Hf o Ho).
    split; [done|]. by apply elem_of_fmap_filter_ne.
  - intros o [Ho Hne]%cascade_rows. destruct (Hc o Ho).
    split; [done|]. by apply elem_of_fmap_filter_ne.
  - done.
  - intros ir [Hir Hne]%cascade_rows. destruct (Hi ir Hir).
    split; [|done]. by apply elem_of_fmap_filter_ne.
  - intros t [Hin Hne]%cascade_rows. apply elem_of_fmap_filter_ne; auto.
  - intros r u [_ Hr]%list_elem_of_filter. by apply Ha.
Qed.

Lemma delete_user_integrity (db : Db) (pk : Z) :
  referential_integrity db → referential_integrity (delete_user pk db).
Proof.
  intros (Hf & Hc & Hs & Hi & Ht & Ha).
  pose proof (delete_user_recipe_ids db pk) as Hids.
  unfold referential_integrity. rewrite Hids.
  unfold user_ids, recipe_ids, ingredient_ids in *.
  simpl. rewrite !collect_cascade, collect_set_null by done. split_and!.
  - intros o [Ho Hne]%cascade_rows. destruct (Hf o Ho).
    split; [|done]. by apply elem_of_fmap_filter_ne.
  - intros o [Ho Hne]%cascade_rows. destruct (Hc o Ho).
    split; [|done]. by apply elem_of_fmap_filter_ne.
  - intros s [[Hin Hu]%cascade_rows Hau]%cascade_rows. destruct (Hs s Hin).
    split; by apply elem_of_fmap_filter_ne.
  - done.
  - done.
  - intros r' u (r & -> & Hr)%list_elem_of_fmap.
    destruct (decide (author r = Some pk)) as [|Hne]; [done|].
    intros Hau. apply elem_of_fmap_filter_ne; [by apply (Ha r)|congruence].
Qed.

(** X9: deleting a recipe or a user leaves no dangling reference: a store
    whose foreign keys all point at rows that are there is such a store
    after the deletion. *)
Theorem deletion_keeps_integrity (db : Db) (pk : Z) :
  referential_integrity db →
  referential_integrity (delete_recipe pk db)
  ∧ referential_integrity (delete_user pk db).
Proof.
  intros Hri. split; [by apply delete_recipe_integrity | by apply delete_user_integrity].
Qed.

Lemma deletion_keeps_integrity_witness :
  referential_integrity sample_db
  ∧ referential_integrity (delete_recipe 1 sample_db)
  ∧ referential_integrity (delete_user 2 sample_db).
Proof.
  split; [exact sample_db_integrity|].
  split.
  - exact (proj1 (deletion_keeps_integrity sample_db 1 sample_db_integrity)).
  - exact (proj2 (deletion_keeps_integrity sample_db 2 sample_db_integrity)).
Defined.

End DeletionFurther.

(** ** More on the shopping list *)

Lemma download_congr (collate : relation string) `{!RelDecision collate}
    (user : Z) (db1 db2 : Db) :
  exists_ (filter (λ sc, ur_user sc = user) (shopping_carts db1))
  = exists_ (filter (λ sc, ur_user sc = user) (shopping_carts db2)) →
  cart_join user db1 = cart_join user db2 →
  (handle (download_shopping_cart collate user) db1).1
  = (handle (download_shopping_cart collate user) db2).1.
Proof.
  intros Hrows Hjoin. run_view. rewrite Hrows. clear Hrows.
  destruct (exists_ _); simpl; [|done].
  unfold shopping_cart_ingredients. by rewrite Hjoin.
Qed.

(** X10: the download never changes the store; it answers 400, without a
    body, exactly when the user has no [Shopping_cart] row, and 200 with a
    text body otherwise. *)
Theorem download_status (collate : relation string) `{!RelDecision collate}
    (user : Z) (db : Db) :
  let (response, db') := handle (download_shopping_cart collate user) db in
  db' = db
  ∧ (status response = 400 ↔ ¬ ∃ pk, in_cart user db pk)
  ∧ (status response = 200 ↔ ∃ pk, in_cart user db pk)
  ∧ (status response = 400 → content response = NoData)
  ∧ (status response = 200 → ∃ text, content response = Text text).
Proof.
  destruct (exists_ (filter (λ sc, ur_user sc = user) (shopping_carts db))) eqn:Hrows.
  - apply cart_nonempty in Hrows as Hcart.
    rewrite (download_nonempty _ _ _ Hcart). simpl.
    split; [done|]. split; [split; [done | by intros []]|].
    split; [done|]. split; [done|]. by eexists.
  - assert (¬ ∃ pk, in_cart user db pk) as Hempty.
    { rewrite cart_nonempty. by rewrite Hrows. }
    rewrite (download_empty _ _ _ Hempty). simpl.
    by repeat split.
Qed.

Lemma join_row_out_of_cart (user : Z) (db : Db) (ir : IngredientRecipe) :
  ¬ in_cart user db (ir_recipe ir) → join_row user db ir = [].
Proof.
  intros Hout. unfold join_row.
  assert (filter (λ sc, ur_user sc = user ∧ ur_recipe sc = ir_recipe ir)
                 (shopping_carts db) = []) as ->; [|done].
  by apply (filter_user_recipe_nil Shopping_cart).
Qed.

Lemma bind_nil_all {A B} (f : A → list B) (l : list A) :
  (∀ x, x ∈ l → f x = []) → l ≫= f = [].
Proof.
  induction l as [|a l IH]; [done|]. intros Hall.
  rewrite bind_cons, (Hall a) by left. simpl. apply IH.
  intros x Hx. apply Hall. by right.
Qed.

(** X11: a cart whose recipes have no [IngredientRecipe] row is not an
    empty cart: the answer is 200, and the document is the heading alone. *)
Theorem download_no_ingredients (collate : relation string)
    `{!RelDecision collate} (user : Z) (db : Db) :
  (∃ pk, in_cart user db pk) →
  (∀ ir, ir ∈ ingredient_recipes db → ¬ in_cart user db (ir_recipe ir)) →
  let response := (handle (download_shopping_cart collate user) db).1 in
  status response = 200
  ∧ shopping_cart_ingredients collate user db = []
  ∧ content response = Text "Список Покупок".
Proof.
  intros Hcart Hnone. rewrite (download_nonempty _ _ _ Hcart). simpl.
  assert (cart_join user db = []) as Hjoin.
  { apply bind_nil_all. intros ir Hir. by apply join_row_out_of_cart, Hnone. }
  unfold shopping_cart_ingredients. rewrite Hjoin.
  by split_and!.
Qed.

Lemma download_no_ingredients_witness :
  let db := mkDb [mkUser 1 "alice"] [mkRecipe 1 "A" None; mkRecipe 2 "B" None]
                 [mkIngredient 1 "egg" "pcs"] [mkIngredientRecipe 2 1 4] []
                 [] [mkUserRecipe 1 1] [] in
  (∃ pk, in_cart 1 db pk)
  ∧ (∀ ir, ir ∈ ingredient_recipes db → ¬ in_cart 1 db (ir_recipe ir))
  ∧ let response := (handle (download_shopping_cart String.le 1) db).1 in
    status response = 200
    ∧ shopping_cart_ingredients String.le 1 db = []
    ∧ content response = Text "Список Покупок".
Proof.
  set (db := mkDb _ _ _ _ _ _ _ _).
  assert (∃ pk, in_cart 1 db pk) as Hcart by (exists 1; left).
  assert (∀ ir, ir ∈ ingredient_recipes db → ¬ in_cart 1 db (ir_recipe ir)) as Hnone.
  { intros ir Hir. rows_cases Hir. in_sample. }
  split; [exact Hcart|]. split; [exact Hnone|].
  exact (download_no_ingredients String.le 1 db Hcart Hnone).
Defined.

Lemma join_row_own_cart (user : Z) (carts' : list UserRecipe) (db : Db)
    (ir : IngredientRecipe) :
  filter (λ sc, ur_user sc = user) carts'
  = filter (λ sc, ur_user sc = user) (shopping_carts db) →
  join_row user (with_shopping_carts carts' db) ir = join_row user db ir.
Proof.
  intros Hown. unfold join_row. simpl.
  assert (∀ l : list UserRecipe,
            filter (λ sc, ur_user sc = user ∧ ur_recipe sc = ir_recipe ir) l
            = filter (λ sc, ur_recipe sc = ir_recipe ir)
                     (filter (λ sc, ur_user sc = user) l)) as Hsplit.
  { intros l. rewrite list_filter_filter. apply list_filter_iff. tauto. }
  by rewrite (Hsplit carts'), (Hsplit (shopping_carts db)), Hown.
Qed.

(** X12: the download of a user depends on no other user's cart: two
    stores that differ only in the [Shopping_cart] rows of other users
    give the same response. *)
Theorem download_own_cart (collate : relation string) `{!RelDecision collate}
    (user : Z) (carts' : list UserRecipe) (db : Db) :
  filter (λ sc, ur_user sc = user) carts'
  = filter (λ sc, ur_user sc = user) (shopping_carts db) →
  (handle (download_shopping_cart collate user) (with_shopping_carts carts' db)).1
  = (handle (download_shopping_cart collate user) db).1.
Proof.
  intros Hown. apply download_congr.
  - simpl. by rewrite Hown.
  - unfold cart_join. simpl. apply list_bind_ext; [|done].
    intros ir. by apply join_row_own_cart.
Qed.

Lemma download_own_cart_witness :
  let carts' := [mkUserRecipe 2 2; mkUserRecipe 1 1; mkUserRecipe 3 1; mkUserRecipe 1 2] in
  filter (λ sc, ur_user sc = 1) carts'
  = filter (λ sc, ur_user sc = 1) (shopping_carts sample_db)
  ∧ (handle (download_shopping_cart String.le 1) (with_shopping_carts carts' sample_db)).1
    = (handle (download_shopping_cart String.le 1) sample_db).1.
Proof.
  set (carts' := [_; _; _; _]).
  assert (filter (λ sc, ur_user sc = 1) carts'
          = filter (λ sc, ur_user sc = 1) (shopping_carts sample_db)) as Hown
    by reflexivity.
  split; [exact Hown|].
  exact (download_own_cart String.le 1 carts' sample_db Hown).
Defined.

(** ** Quantities *)

Lemma Sum_app (l1 l2 : list Z) : Sum (l1 ++ l2) = Sum l1 + Sum l2.
Proof. induction l1 as [|x l1 IH]; simpl; [done|]. rewrite IH. lia. Qed.

Lemma Sum_Permutation (l1 l2 : list Z) : l1 ≡ₚ l2 → Sum l1 = Sum l2.
Proof. induction 1; simpl; lia. Qed.

Lemma Sum_pointwise {A} (f g : A → Z) (l : list A) :
  Sum ((λ x, f x + g x) <$> l) = Sum (f <$> l) + Sum (g <$> l).
Proof. unfold Sum. induction l as [|x l IH]; csimpl; lia. Qed.

Lemma Sum_cons (x : Z) (l : list Z) : Sum (x :: l) = x + Sum l.
Proof. reflexivity. Qed.

Lemma Sum_zero {K} (ks : list K) : Sum ((λ _, 0) <$> ks) = 0.
Proof. induction ks as [|k ks IH]; [done|]. by rewrite fmap_cons, Sum_cons, IH. Qed.

Lemma Sum_indicator_absent {K} `{EqDecision K} (k0 : K) (v : Z) (ks : list K) :
  k0 ∉ ks → Sum ((λ k, if decide (k0 = k) then v else 0) <$> ks) = 0.
Proof.
  induction ks as [|k ks IH]; [done|].
  intros [Hne Hl]%not_elem_of_cons. rewrite fmap_cons, Sum_cons, IH by done.
  by destruct (decide (k0 = k)).
Qed.

(** Over keys without repetition, the quantity of a row is counted under
    its own key and under no other. *)
Lemma Sum_indicator {K} `{EqDecision K} (k0 : K) (v : Z) (ks : list K) :
  NoDup ks → k0 ∈ ks →
  Sum ((λ k, if decide (k0 = k) then v else 0) <$> ks) = v.
Proof.
  induction ks as [|k ks IH]; intros Hnd Hin; [by apply not_elem_of_nil in Hin|].
  apply NoDup_cons in Hnd as [Hk Hnd]. rewrite fmap_cons, Sum_cons.
  destruct (decide (k0 = k)) as [<-|Hne].
  - rewrite Sum_indicator_absent by done. lia.
  - apply elem_of_cons in Hin as [?|Hin]; [done|]. rewrite IH by done. lia.
Qed.

Lemma Sum_groups (rows : list (string * string * Z)) (ks : list (string * string)) :
  NoDup ks → (∀ row, row ∈ rows → row.1 ∈ ks) →
  Sum ((λ k, Sum (snd <$> filter (λ row, row.1 = k) rows)) <$> ks)
  = Sum (snd <$> rows).
Proof.
  intros Hnd. induction rows as [|row rows IH]; intros Hkeys.
  - apply Sum_zero.
  - rewrite fmap_cons, Sum_cons. rewrite <- IH by (intros; apply Hkeys; by right).
    rewrite <- (Sum_indicator row.1 row.2 ks Hnd) at 1 by (apply Hkeys; left).
    rewrite <- Sum_pointwise. f_equal. apply list_fmap_ext. intros i k _.
    rewrite filter_cons. by destruct (decide (row.1 = k)).
Qed.

Lemma Sum_values_annotate_sum (rows : list (string * string * Z)) :
  Sum (amount_sum <$> values_annotate_sum rows) = Sum (snd <$> rows).
Proof.
  unfold values_annotate_sum. rewrite <- list_fmap_compose.
  rewrite <- (Sum_groups rows (remove_dups (fst <$> rows))).
  - done.
  - apply NoDup_remove_dups.
  - intros row Hrow. apply elem_of_remove_dups. by apply list_elem_of_fmap_2.
Qed.

Section Quantities.
Context (user : Z) (db : Db).
Hypothesis cart_unique : NoDup (shopping_carts db).
Hypothesis ingredient_pk : NoDup (ingredient_ids db).

Lemma join_row_amount (ir : IngredientRecipe) :
  snd <$> join_row user db ir
  = if decide (in_cart user db (ir_recipe ir) ∧ ir_ingredient ir ∈ ingredient_ids db)
    then [amount ir] else [].
Proof.
  unfold join_row.
  rewrite (list_filter_iff _ (λ sc, sc = mkUserRecipe user (ir_recipe ir)))
    by (intros sc; apply user_recipe_eta).
  destruct (filter_eq_unique (mkUserRecipe user (ir_recipe ir)) (shopping_carts db))
    as [[-> Hnone]|[-> Hsc]]; [done|..].
  { simpl. destruct (decide _) as [[Hin _]|_]; [|done]. by destruct Hnone. }
  simpl. rewrite app_nil_r.
  destruct (filter_unique ingredient_id (ir_ingredient ir) (ingredients db))
    as [[-> Hnone]|(ing & -> & Hing & Hid)]; [done|..].
  - simpl. destruct (decide _) as [[_ Hk]|_]; [|done].
    apply list_elem_of_fmap in Hk as (ing & Hid & Hing).
    by destruct (Hnone ing Hing).
  - simpl. destruct (decide _) as [|Hn]; [done|].
    destruct Hn. split; [done|]. rewrite <- Hid. by apply list_elem_of_fmap_2.
Qed.

Lemma cart_join_amounts :
  snd <$> cart_join user db = amount <$> cart_rows user db.
Proof.
  unfold cart_join, cart_rows.
  induction (ingredient_recipes db) as [|ir l IH]; [done|].
  rewrite bind_cons, fmap_app, IH, join_row_amount, filter_cons.
  by destruct (decide _).
Qed.
End Quantities.

(** X13: nothing is lost or counted twice: with each (user, recipe) pair
    at most once in the cart and ingredient ids unique, the quantities of
    the list add up to the quantities of the [IngredientRecipe] rows of the
    recipes in the cart. *)
Theorem shopping_list_total (collate : relation string) `{!RelDecision collate}
    (user : Z) (db : Db) :
  NoDup (shopping_carts db) →
  NoDup (ingredient_ids db) →
  Sum (amount_sum <$> shopping_cart_ingredients collate user db)
  = Sum (amount <$> cart_rows user db).
Proof.
  intros Hcart Hpk.
  assert (shopping_cart_ingredients collate user db
          ≡ₚ values_annotate_sum (cart_join user db)) as Hperm
    by apply merge_sort_Permutation.
  rewrite (Sum_Permutation _ _ (fmap_Permutation amount_sum _ _ Hperm)).
  rewrite Sum_values_annotate_sum. by rewrite cart_join_amounts.
Qed.

Lemma shopping_list_total_witness :
  NoDup (shopping_carts sample_db)
  ∧ NoDup (ingredient_ids sample_db)
  ∧ Sum (amount_sum <$> shopping_cart_ingredients String.le 1 sample_db)
    = Sum (amount <$> cart_rows 1 sample_db).
Proof.
  assert (NoDup (shopping_carts sample_db)) as Hcart by in_sample.
  assert (NoDup (ingredient_ids sample_db)) as Hpk by in_sample.
  split; [exact Hcart|]. split; [exact Hpk|].
  exact (shopping_list_total String.le 1 sample_db Hcart Hpk).
Defined.

Lemma Sum_positive (l : list Z) :
  l ≠ [] → (∀ x, x ∈ l → 0 < x) → 0 < Sum l.
Proof.
  induction l as [|x l IH]; [done|]. intros _ Hall. simpl.
  assert (0 < x) by (apply Hall; left).
  destruct l as [|y l]; [simpl; lia|].
  assert (0 < Sum (y :: l)); [|lia].
  apply IH; [done|]. intros z Hz. apply Hall. by right.
Qed.

Lemma cart_join_amount_elem (user : Z) (db : Db) (row : string * string * Z) :
  row ∈ cart_join user db → ∃ ir, ir ∈ ingredient_recipes db ∧ amount ir = row.2.
Proof.
  unfold cart_join, join_row.
  intros (ir & Hrow & Hir)%list_elem_of_bind.
  apply list_elem_of_bind in Hrow as (sc & Hrow & _).
  apply list_elem_of_bind in Hrow as (ing & Hrow & _).
  apply list_elem_of_singleton in Hrow as ->. by exists ir.
Qed.

(** X14: when every [IngredientRecipe] row has a positive amount, every
    line of the list has a positive quantity: a group is never empty. *)
Theorem shopping_list_positive (collate : relation string) `{!RelDecision collate}
    (user : Z) (db : Db) (g : ValuesRow) :
  (∀ ir, ir ∈ ingredient_recipes db → 0 < amount ir) →
  g ∈ shopping_cart_ingredients collate user db →
  0 < amount_sum g.
Proof.
  intros Hpos Hg.
  assert (shopping_cart_ingredients collate user db
          ≡ₚ values_annotate_sum (cart_join user db)) as Hperm
    by apply merge_sort_Permutation.
  rewrite Hperm in Hg.
  apply list_elem_of_fmap in Hg as (k & -> & Hk). simpl.
  apply elem_of_remove_dups, list_elem_of_fmap in Hk as (row & -> & Hrow).
  apply Sum_positive.
  - intros Hnil%fmap_nil_inv.
    assert (row ∈ filter (λ r, r.1 = row.1) (cart_join user db)) as Hf
      by (by apply list_elem_of_filter).
    rewrite Hnil in Hf. by apply not_elem_of_nil in Hf.
  - intros x (row' & -> & [_ Hrow']%list_elem_of_filter)%list_elem_of_fmap.
    apply cart_join_amount_elem in Hrow' as (ir & Hir & <-). by apply Hpos.
Qed.

Lemma shopping_list_positive_witness :
  (∀ ir, ir ∈ ingredient_recipes sample_db → 0 < amount ir)
  ∧ mkValuesRow "flour" "g" 150 ∈ shopping_cart_ingredients String.le 1 sample_db
  ∧ 0 < amount_sum (mkValuesRow "flour" "g" 150).
Proof.
  assert (∀ ir, ir ∈ ingredient_recipes sample_db → 0 < amount ir) as Hpos.
  { intros ir Hir. rows_cases Hir; simpl; lia. }
  assert (mkValuesRow "flour" "g" 150 ∈ shopping_cart_ingredients String.le 1 sample_db)
    as Hg by in_sample.
  split; [exact Hpos|]. split; [exact Hg|].
  exact (shopping_list_positive String.le 1 sample_db _ Hpos Hg).
Defined.

(** ** A deleted recipe and the shopping list *)

Lemma bind_ext_in {A B} (f g : A → list B) (l : list A) :
  (∀ x, x ∈ l → f x = g x) → l ≫= f = l ≫= g.
Proof.
  induction l as [|a l IH]; [done|]. intros Hext.
  rewrite !bind_cons, (Hext a) by left. f_equal. apply IH.
  intros x Hx. apply Hext. by right.
Qed.

Lemma bind_filter {A B} (P : A → Prop) `{!∀ x, Decision (P x)}
    (f : A → list B) (l : list A) :
  (∀ x, x ∈ l → ¬ P x → f x = []) → l ≫= f = filter P l ≫= f.
Proof.
  induction l as [|a l IH]; [done|]. intros Hnil.
  rewrite bind_cons, filter_cons, IH by (intros x Hx; apply Hnil; by right).
  destruct (decide (P a)) as [|Hn]; [by rewrite bind_cons|].
  by rewrite (Hnil a) by (left || done).
Qed.

(** What a join looks at in the cart: the rows of one user and one recipe. *)
Lemma join_row_carts (user : Z) (db1 db2 : Db) (ir : IngredientRecipe) :
  ingredients db1 = ingredients db2 →
  filter (λ sc, ur_user sc = user ∧ ur_recipe sc = ir_recipe ir) (shopping_carts db1)
  = filter (λ sc, ur_user sc = user ∧ ur_recipe sc = ir_recipe ir) (shopping_carts db2) →
  join_row user db1 ir = join_row user db2 ir.
Proof. intros Hing Hcarts. unfold join_row. by rewrite Hing, Hcarts. Qed.

Lemma delete_from_cart_store (user pk : Z) (db : Db) :
  (handle (shopping_cart DELETE user pk) db).2
  = with_shopping_carts
      (filter (λ o, ¬ (ur_user o = user ∧ ur_recipe o = pk)) (shopping_carts db)) db.
Proof.
  simpl. destruct (decide (mkUserRecipe user pk ∈ shopping_carts db)) as [Hin|Hout].
  - rewrite delete_from_present; [done|].
    intros Hnil. by apply (filter_user_recipe_nil Shopping_cart) in Hnil.
  - rewrite delete_from_absent
      by (by apply (filter_user_recipe_nil Shopping_cart)).
    simpl. rewrite (filter_not_user_recipe Shopping_cart). simpl.
    rewrite filter_ne_absent by done. by destruct db.
Qed.

Section DeletedRecipe.
Import Deletion.
Context (user pk : Z) (db : Db).

Lemma cart_join_delete_recipe :
  cart_join user (delete_recipe pk db)
  = filter (λ ir, ir_recipe ir ≠ pk) (ingredient_recipes db) ≫= join_row user db.
Proof.
  unfold cart_join. simpl. rewrite !collect_cascade by done.
  rewrite (list_filter_iff _ (λ ir, ir_recipe ir ≠ pk))
    by (intros ir; split; congruence).
  apply bind_ext_in. intros ir [Hne _]%list_elem_of_filter.
  apply join_row_carts; [done|]. simpl. rewrite collect_cascade by done.
  rewrite list_filter_filter. apply list_filter_iff. intros sc.
  split; [tauto|]. intros [Hu Hr]. split; [done|]. congruence.
Qed.

Lemma cart_join_delete_from :
  cart_join user (handle (shopping_cart DELETE user pk) db).2
  = filter (λ ir, ir_recipe ir ≠ pk) (ingredient_recipes db) ≫= join_row user db.
Proof.
  rewrite delete_from_cart_store. unfold cart_join. simpl.
  rewrite (bind_filter (λ ir, ir_recipe ir ≠ pk)).
  - apply bind_ext_in. intros ir [Hne _]%list_elem_of_filter.
    apply join_row_carts; [done|]. simpl.
    rewrite list_filter_filter. apply list_filter_iff. intros sc.
    split; [tauto|]. intros [Hu Hr]. split; [done|]. intros [_ Hpk]. congruence.
  - intros ir _ Heq%dec_stable. unfold join_row. simpl.
    rewrite list_filter_filter.
    rewrite (list_filter_iff _ (λ _ : UserRecipe, False))
      by (intros sc; split; [intros [[Hu Hr] Hn]; apply Hn; split; congruence | done]).
    assert (∀ l : list UserRecipe, filter (λ _, False) l = []) as ->; [|done].
    induction l as [|x l IH]; [done|]. rewrite filter_cons.
    by destruct (decide False).
Qed.

Lemma cart_rows_delete_recipe :
  filter (λ sc, ur_user sc = user) (shopping_carts (delete_recipe pk db))
  = filter (λ sc, ur_user sc = user)
           (shopping_carts (handle (shopping_cart DELETE user pk) db).2).
Proof.
  rewrite delete_from_cart_store. simpl. rewrite !collect_cascade by done.
  rewrite !list_filter_filter. apply list_filter_iff. intros sc.
  split; intros [Hu Hr]; (split; [done|]).
  - intros [_ Hpk]. congruence.
  - intros [= Hpk]. by apply Hr.
Qed.
End DeletedRecipe.

(** X15: for the shopping list of a user, deleting a recipe is the same
    as the user taking it out of the cart: the download after
    [recipe.delete()] is the download after [DELETE shopping_cart]. *)
Theorem download_after_delete_recipe (collate : relation string)
    `{!RelDecision collate} (user pk : Z) (db : Db) :
  (handle (download_shopping_cart collate user) (Deletion.delete_recipe pk db)).1
  = (handle (download_shopping_cart collate user)
            (handle (shopping_cart DELETE user pk) db).2).1.
Proof.
  apply download_congr.
  - by rewrite cart_rows_delete_recipe.
  - by rewrite cart_join_delete_recipe, cart_join_delete_from.
Qed.

(** ** Subscriptions: unknown authors, unsubscribing, the list *)

Lemma subscriptions_eta (s : Subscriptions) (user id : Z) :
  sub_user s = user ∧ sub_author s = id ↔ s = mkSubscriptions user id.
Proof. destruct s; simpl. split; [intros [-> ->] | intros [= -> ->]]; done. Qed.

Lemma get_author (db : Db) (id : Z) :
  NoDup (user_ids db) → id ∈ user_ids db →
  ∃ a, filter (λ a, user_id a = id) (users db) = [a] ∧ user_id a = id.
Proof.
  intros Hnd Hin.
  destruct (filter_present user_id id (users db) Hnd Hin) as (a & Ha & _ & Hid).
  by exists a.
Qed.

Lemma filter_eq_absent {A} `{EqDecision A} (v : A) (l : list A) :
  v ∉ l → filter (λ x, x = v) l = [].
Proof.
  induction l as [|a l IH]; [done|].
  intros [Hne Hl]%not_elem_of_cons. rewrite filter_cons.
  destruct (decide (a = v)); [congruence | auto].
Qed.

Lemma subscribe_delete_absent (user id : Z) (db : Db) :
  NoDup (user_ids db) →
  id ∈ user_ids db →
  mkSubscriptions user id ∉ subscriptions db →
  handle (subscribe DELETE user id) db
  = (Response_ (Dict [("detail", "Not found.")]) HTTP_404_NOT_FOUND, db).
Proof.
  intros Hnd Hin Hout.
  destruct (get_author db id Hnd Hin) as (a & Ha & Hid).
  run_view. rewrite Ha, Hid.
  rewrite (list_filter_iff _ (λ s, s = mkSubscriptions user id))
    by (intros s; apply subscriptions_eta).
  by rewrite (filter_eq_absent _ _ Hout).
Qed.

(** X16: [subscribe] for an id that no user has answers 404, for POST
    and for DELETE, and leaves the store as it was. *)
Theorem subscribe_unknown_author (method : Method) (user id : Z) (db : Db) :
  id ∉ user_ids db →
  handle (subscribe method user id) db
  = (Response_ (Dict [("detail", "Not found.")]) HTTP_404_NOT_FOUND, db).
Proof.
  intros Hnone%filter_absent. run_view. by rewrite Hnone.
Qed.

Lemma subscribe_unknown_author_witness :
  (9 ∉ user_ids sample_db)
  ∧ handle (subscribe POST 1 9) sample_db
    = (Response_ (Dict [("detail", "Not found.")]) HTTP_404_NOT_FOUND, sample_db)
  ∧ handle (subscribe DELETE 1 9) sample_db
    = (Response_ (Dict [("detail", "Not found.")]) HTTP_404_NOT_FOUND, sample_db).
Proof.
  assert (9 ∉ user_ids sample_db) as Hnone by in_sample.
  split; [exact Hnone|]. split.
  - exact (subscribe_unknown_author POST 1 9 sample_db Hnone).
  - exact (subscribe_unknown_author DELETE 1 9 sample_db Hnone).
Defined.

(** X17: unsubscribing from an existing user one is not subscribed to
    answers 404, not the 400 that [delete_from] gives for a missing row, and
    leaves the store as it was. *)
Theorem unsubscribe_missing (user id : Z) (db : Db) :
  NoDup (user_ids db) →
  id ∈ user_ids db →
  mkSubscriptions user id ∉ subscriptions db →
  handle (subscribe DELETE user id) db
  = (Response_ (Dict [("detail", "Not found.")]) HTTP_404_NOT_FOUND, db).
Proof.
  apply subscribe_delete_absent.
Qed.

Lemma unsubscribe_missing_witness :
  NoDup (user_ids sample_db)
  ∧ 2 ∈ user_ids sample_db
  ∧ (mkSubscriptions 1 2 ∉ subscriptions sample_db)
  ∧ handle (subscribe DELETE 1 2) sample_db
    = (Response_ (Dict [("detail", "Not found.")]) HTTP_404_NOT_FOUND, sample_db).
Proof.
  assert (NoDup (user_ids sample_db)) as Hnd by in_sample.
  assert (2 ∈ user_ids sample_db) as Hin by in_sample.
  assert (mkSubscriptions 1 2 ∉ subscriptions sample_db) as Hout by in_sample.
  split; [exact Hnd|]. split; [exact Hin|]. split; [exact Hout|].
  exact (unsubscribe_missing 1 2 sample_db Hnd Hin Hout).
Defined.

(** X18: unsubscribing from an author one follows, the pair being in
    [Subscriptions] once, answers 204 and removes that row and no other;
    a second attempt then answers 404 and changes nothing. *)
Theorem unsubscribe_twice (user id : Z) (db : Db) :
  NoDup (user_ids db) →
  id ∈ user_ids db →
  NoDup (subscriptions db) →
  mkSubscriptions user id ∈ subscriptions db →
  let (first, db1) := handle (subscribe DELETE user id) db in
  let (second, db2) := handle (subscribe DELETE user id) db1 in
  first = Response_ NoData HTTP_204_NO_CONTENT
  ∧ db1 = set_subscriptions
            (filter (λ s, s ≠ mkSubscriptions user id) (subscriptions db)) db
  ∧ subscriptions db ≡ₚ (mkSubscriptions user id :: subscriptions db1)
  ∧ second = Response_ (Dict [("detail", "Not found.")]) HTTP_404_NOT_FOUND
  ∧ db2 = db1.
Proof.
  intros Hnd Hin Hsubs Hsub.
  destruct (get_author db id Hnd Hin) as (a & Ha & Hid).
  assert (handle (subscribe DELETE user id) db
          = (Response_ NoData HTTP_204_NO_CONTENT,
             set_subscriptions
               (filter (λ s, s ≠ mkSubscriptions user id) (subscriptions db)) db))
    as ->.
  { run_view. rewrite Ha, Hid.
    rewrite (list_filter_iff _ (λ s, s = mkSubscriptions user id))
      by (intros s; apply subscriptions_eta).
    destruct (filter_eq_unique (mkSubscriptions user id) (subscriptions db) Hsubs)
      as [[_ Hout]|[-> _]]; done. }
  set (db1 := set_subscriptions _ db).
  assert (mkSubscriptions user id ∉ subscriptions db1) as Hgone.
  { simpl. intros [Hne _]%list_elem_of_filter. by apply Hne. }
  rewrite (subscribe_delete_absent user id db1); [|done..].
  split; [done|]. split; [done|]. split; [|done].
  simpl. by apply filter_remove_one.
Qed.

Lemma unsubscribe_twice_witness :
  let db := set_subscriptions [mkSubscriptions 2 1; mkSubscriptions 1 2] sample_db in
  NoDup (user_ids db)
  ∧ 2 ∈ user_ids db
  ∧ NoDup (subscriptions db)
  ∧ mkSubscriptions 1 2 ∈ subscriptions db
  ∧ let (first, db1) := handle (subscribe DELETE 1 2) db in
    let (second, db2) := handle (subscribe DELETE 1 2) db1 in
    first = Response_ NoData HTTP_204_NO_CONTENT
    ∧ db1 = set_subscriptions
              (filter (λ s, s ≠ mkSubscriptions 1 2) (subscriptions db)) db
    ∧ subscriptions db ≡ₚ (mkSubscriptions 1 2 :: subscriptions db1)
    ∧ second = Response_ (Dict [("detail", "Not found.")]) HTTP_404_NOT_FOUND
    ∧ db2 = db1.
Proof.
  set (db := set_subscriptions _ sample_db).
  assert (NoDup (user_ids db)) as Hnd by in_sample.
  assert (2 ∈ user_ids db) as Hin by in_sample.
  assert (NoDup (subscriptions db)) as Hsubs by in_sample.
  assert (mkSubscriptions 1 2 ∈ subscriptions db) as Hsub by in_sample.
  split; [exact Hnd|]. split; [exact Hin|]. split; [exact Hsubs|].
  split; [exact Hsub|].
  exact (unsubscribe_twice 1 2 db Hnd Hin Hsubs Hsub).
Defined.

Lemma subscriptions_queryset_filter (user : Z) (db : Db) :
  NoDup (subscriptions db) →
  subscriptions_queryset user db
  = filter (λ a, mkSubscriptions user (user_id a) ∈ subscriptions db) (users db).
Proof.
  intros Hsubs. unfold subscriptions_queryset.
  induction (users db) as [|a l IH]; [done|].
  rewrite bind_cons, IH, filter_cons. clear IH.
  rewrite (list_filter_iff _ (λ s, s = mkSubscriptions user (user_id a)))
    by (intros s; rewrite <- subscriptions_eta; tauto).
  destruct (filter_eq_unique (mkSubscriptions user (user_id a)) (subscriptions db) Hsubs)
    as [[-> Hout]|[-> Hin]]; simpl.
  - by destruct (decide _).
  - destruct (decide _); done.
Qed.

(** X19: the queryset behind the subscriptions list holds the users that
    [request.user] follows, as authors, not the users that follow
    [request.user]; with each subscription and each user stored once, no
    author is listed twice. *)
Theorem subscriptions_queryset_spec (user : Z) (db : Db) :
  NoDup (users db) →
  NoDup (subscriptions db) →
  (∀ a, a ∈ subscriptions_queryset user db
        ↔ a ∈ users db ∧ mkSubscriptions user (user_id a) ∈ subscriptions db)
  ∧ NoDup (subscriptions_queryset user db).
Proof.
  intros Husers Hsubs. rewrite subscriptions_queryset_filter by done.
  split; [|by apply NoDup_filter].
  intros a. rewrite list_elem_of_filter. tauto.
Qed.

Lemma subscriptions_queryset_spec_witness :
  let db := set_subscriptions [mkSubscriptions 2 1] sample_db in
  NoDup (users db)
  ∧ NoDup (subscriptions db)
  ∧ subscriptions_queryset 2 db = [mkUser 1 "alice"]
  ∧ subscriptions_queryset 1 db = []
  ∧ (∀ a, a ∈ subscriptions_queryset 2 db
          ↔ a ∈ users db ∧ mkSubscriptions 2 (user_id a) ∈ subscriptions db)
  ∧ NoDup (subscriptions_queryset 2 db).
Proof.
  set (db := set_subscriptions _ sample_db).
  assert (NoDup (users db)) as Husers by in_sample.
  assert (NoDup (subscriptions db)) as Hsubs by in_sample.
  split; [exact Husers|]. split; [exact Hsubs|].
  split; [reflexivity|]. split; [reflexivity|].
  exact (subscriptions_queryset_spec 2 db Husers Hsubs).
Defined.

(** ** The order of the stored rows *)

Lemma bind_Permutation_both {A B} (f g : A → list B) (l l' : list A) :
  l ≡ₚ l' → (∀ x, f x ≡ₚ g x) → l ≫= f ≡ₚ l' ≫= g.
Proof.
  intros Hl Hfg. rewrite <- Hl. clear l' Hl.
  induction l as [|a l IH]; [done|]. by rewrite !bind_cons, IH, (Hfg a).
Qed.

Lemma cart_join_Permutation (user : Z) (db db' : Db) :
  ingredient_recipes db ≡ₚ ingredient_recipes db' →
  shopping_carts db ≡ₚ shopping_carts db' →
  ingredients db ≡ₚ ingredients db' →
  cart_join user db ≡ₚ cart_join user db'.
Proof.
  intros Hir Hsc Hing. unfold cart_join.
  apply bind_Permutation_both; [done|]. intros ir. unfold join_row.
  apply bind_Permutation_both; [by rewrite Hsc|]. intros _.
  apply bind_Permutation_both; [by rewrite Hing|]. done.
Qed.

Lemma values_annotate_sum_Permutation (rows rows' : list (string * string * Z)) :
  rows ≡ₚ rows' → values_annotate_sum rows ≡ₚ values_annotate_sum rows'.
Proof.
  intros Hperm. unfold values_annotate_sum.
  assert (remove_dups (fst <$> rows) ≡ₚ remove_dups (fst <$> rows')) as Hkeys.
  { apply NoDup_Permutation; [apply NoDup_remove_dups..|].
    intros k. by rewrite !elem_of_remove_dups, Hperm. }
  rewrite Hkeys.
  assert (∀ k, Sum (snd <$> filter (λ row, row.1 = k) rows)
               = Sum (snd <$> filter (λ row, row.1 = k) rows')) as Hsum.
  { intros k. apply Sum_Permutation. by rewrite Hperm. }
  assert (∀ ks : list (string * string),
            (λ k, mkValuesRow k.1 k.2 (Sum (snd <$> filter (λ row, row.1 = k) rows))) <$> ks
            = (λ k, mkValuesRow k.1 k.2 (Sum (snd <$> filter (λ row, row.1 = k) rows'))) <$> ks)
    as ->; [|done].
  intros ks. apply list_fmap_ext. intros i k _. by rewrite Hsum.
Qed.

(** X20: the list does not depend on the order in which the rows are
    stored: two stores with the same [IngredientRecipe], [Shopping_cart]
    and [Ingredient] rows, in any order, give the same lines with the same
    quantities, up to the order of lines. *)
Theorem shopping_list_storage_order (collate : relation string)
    `{!RelDecision collate} (user : Z) (db db' : Db) :
  ingredient_recipes db ≡ₚ ingredient_recipes db' →
  shopping_carts db ≡ₚ shopping_carts db' →
  ingredients db ≡ₚ ingredients db' →
  shopping_cart_ingredients collate user db
  ≡ₚ shopping_cart_ingredients collate user db'.
Proof.
  intros Hir Hsc Hing. unfold shopping_cart_ingredients, order_by_name.
  rewrite !merge_sort_Permutation.
  by apply values_annotate_sum_Permutation, cart_join_Permutation.
Qed.

Lemma shopping_list_storage_order_witness :
  let db' := mkDb (users sample_db) (recipes sample_db)
                  (reverse (ingredients sample_db))
                  (reverse (ingredient_recipes sample_db))
                  [] [] (reverse (shopping_carts sample_db)) [] in
  ingredient_recipes sample_db ≡ₚ ingredient_recipes db'
  ∧ shopping_carts sample_db ≡ₚ shopping_carts db'
  ∧ ingredients sample_db ≡ₚ ingredients db'
  ∧ shopping_cart_ingredients String.le 1 sample_db
    ≡ₚ shopping_cart_ingredients String.le 1 db'.
Proof.
  set (db' := mkDb _ _ _ _ _ _ _ _).
  assert (ingredient_recipes sample_db ≡ₚ ingredient_recipes db') as Hir
    by (symmetry; apply reverse_Permutation).
  assert (shopping_carts sample_db ≡ₚ shopping_carts db') as Hsc
    by (symmetry; apply reverse_Permutation).
  assert (ingredients sample_db ≡ₚ ingredients db') as Hing
    by (symmetry; apply reverse_Permutation).
  split; [exact Hir|]. split; [exact Hsc|]. split; [exact Hing|].
  exact (shopping_list_storage_order String.le 1 sample_db db' Hir Hsc Hing).
Defined.
